(** * pywinauto.findwindows: criteria filtering and single-result resolution

    A shallow embedding of [src/pywinauto/findwindows.py].

    The module narrows a population of UI elements by a keyword-argument
    record of criteria.  Two pipelines exist: [find_elements] (UI
    Automation element objects) and [find_windows] (raw window handles);
    [find_window] dispatches on [sysinfo.UIA_support] and insists on exactly
    one result.

    Everything the module imports (win32functions, handleprops, controls,
    findbestmatch, re, the element-info classes) is outside the file and is
    taken as a [Platform]: a snapshot of the native state together with the
    imported functions.  Python exceptions are an [Outcome]; calls into
    win32functions and writes to stdout are recorded in an event log, so
    that "how many native queries were made" is a statement about a run. *)

From Stdlib Require Import List ZArith String Bool Lia DecimalString.
Import ListNotations.
Open Scope string_scope.
Open Scope list_scope.
Open Scope Z_scope.

Set Implicit Arguments.

(** ** Python lists: indexing and slicing *)

Module Py.

(** Python's [len]. *)
Definition len {A} (l : list A) : Z := Z.of_nat (List.length l).

(** [l[i]]: a negative index counts from the end; [None] stands for
    IndexError. *)
Definition index {A} (l : list A) (i : Z) : option A :=
  let i' := if i <? 0 then i + len l else i in
  if (i' <? 0) || (len l <=? i') then None
  else nth_error l (Z.to_nat i').

(** How a slice bound is clipped to [0..len]. *)
Definition clip (n k : Z) : Z :=
  if k <? 0 then Z.max (k + n) 0 else Z.min k n.

(** [l[i:j]] with step 1: never raises. *)
Definition slice {A} (l : list A) (i j : Z) : list A :=
  let lo := clip (len l) i in
  let hi := clip (len l) j in
  firstn (Z.to_nat (hi - lo)) (skipn (Z.to_nat lo) l).

(** [not l] for a list. *)
Definition is_empty {A} (l : list A) : bool :=
  match l with [] => true | _ :: _ => false end.

(** Truth value of an int. *)
Definition truthy_int (z : Z) : bool := negb (z =? 0).

(** ["%d" % z]. *)
Definition fmt_d (z : Z) : string := NilZero.string_of_int (Z.to_int z).

(** A keyword argument with a default value in the signature. *)
Definition default {A} (d : A) (o : option A) : A :=
  match o with Some a => a | None => d end.

End Py.

(** ** Exceptions, events and the monad of a call *)

(** Window handles are Python ints. *)
Definition HWND := Z.

(** The exceptions a call of this module can end in.  [WindowNotFoundError]
    is raised with no argument by [find_window] and with a message by the
    [found_index] step; [WindowAmbiguousError] gets the matched list as its
    [windows] attribute.  [IndexError], [TypeError], [re_error] and
    [WinError] are the built-in ones of list indexing, of [re] and of
    ctypes; [ExternalError] is whatever an imported function raises. *)
Inductive Exn (EI : Type) : Type :=
| WindowNotFoundError (msg : option string)
| WindowAmbiguousError (msg : string) (windows : list EI)
| IndexError
| TypeError
| re_error
| WinError
| ExternalError (name : string).

Arguments WindowNotFoundError {EI} msg.
Arguments WindowAmbiguousError {EI} msg windows.
Arguments IndexError {EI}.
Arguments TypeError {EI}.
Arguments re_error {EI}.
Arguments WinError {EI}.
Arguments ExternalError {EI} name.

Inductive Outcome (EI A : Type) : Type :=
| Return (a : A)
| Raise (e : Exn EI).

Arguments Return {EI A} a.
Arguments Raise {EI A} e.

(** What a run does to the outside world. *)
Inductive Event : Type :=
| CallEnumWindows
| CallGetGUIThreadInfo
| CallGetDesktopWindow
| Stdout (line : string).

Definition Event_eq_dec (x y : Event) : {x = y} + {x <> y}.
Proof. decide equality. apply string_dec. Defined.

(** A computation: the events it performed, in order, and how it ended. *)
Definition M (EI A : Type) : Type := (list Event * Outcome EI A)%type.

Definition ret {EI A} (a : A) : M EI A := ([], Return a).

Definition raise {EI A} (e : Exn EI) : M EI A := ([], Raise e).

Definition emit {EI} (ev : Event) : M EI unit := ([ev], Return tt).

Definition bind {EI A B} (m : M EI A) (k : A -> M EI B) : M EI B :=
  match m with
  | (log, Return a) => let '(log', r) := k a in (log ++ log', r)
  | (log, Raise e) => (log, Raise e)
  end.

Declare Scope py_scope.
Delimit Scope py_scope with py.
Notation "x <- m ;; k" := (bind m (fun x => k))
  (at level 61, m at next level, right associativity) : py_scope.
Notation "m ;;; k" := (bind m (fun _ => k))
  (at level 61, right associativity) : py_scope.
Open Scope py_scope.

(** A list comprehension [[x for x in l if p(x)]] whose condition can
    raise: the first exception ends the comprehension. *)
Fixpoint filterM {EI A} (p : A -> M EI bool) (l : list A) : M EI (list A) :=
  match l with
  | [] => ret []
  | x :: l' =>
      b <- p x ;;
      rest <- filterM p l' ;;
      ret (if b then x :: rest else rest)
  end.

(** The log and the outcome of a run. *)
Definition events {EI A} (m : M EI A) : list Event := fst m.
Definition outcome {EI A} (m : M EI A) : Outcome EI A := snd m.

(** How often a run performed an event. *)
Definition calls {EI A} (ev : Event) (m : M EI A) : nat :=
  count_occ Event_eq_dec (events m) ev.

(** ** Keyword arguments *)

(** The [**kwargs] of a call.  Every keyword can be left out ([None]); the
    defaults of the signatures ([top_level_only = True],
    [visible_only = True], [enabled_only = False], [active_only = False])
    are filled in by the pipelines.  [PT] is the type of a [parent], [ET]
    the type [predicate_func] is called on: element objects in
    [find_elements], window handles in [find_windows]. *)
Record Kwargs (PT ET : Type) : Type := mkKwargs {
  class_name : option string;
  class_name_re : option string;
  parent : option PT;
  process : option Z;
  title : option string;
  title_re : option string;
  top_level_only : option bool;
  visible_only : option bool;
  enabled_only : option bool;
  best_match : option string;
  handle : option HWND;
  ctrl_index : option Z;
  found_index : option Z;
  predicate_func : option (ET -> bool);
  active_only : option bool;
  control_id : option Z
}.

(** A call with no keyword at all. *)
Definition no_kwargs {PT ET} : Kwargs PT ET :=
  mkKwargs None None None None None None None None None None None None None
           None None None.

(** The [parent] of [find_elements]: a handle or an element object. *)
Inductive ParentArg (EI : Type) : Type :=
| ParentHandle (h : HWND)
| ParentInfo (e : EI).

Arguments ParentHandle {EI} h.
Arguments ParentInfo {EI} e.

(** ** The platform *)

(** The names the module imports, and the native state they read.  The
    state is a snapshot: one call sees one state. *)
Record Platform : Type := {
  (** objects of the imported classes *)
  ElementInfo : Type;
  Wrapper : Type;
  Regex : Type;
  (** sysinfo *)
  UIA_support : bool;
  (** win32functions: the handles [EnumWindows] passes to its callback,
      what [GetGUIThreadInfo] returns and leaves in [hwndActive], and the
      desktop window *)
  EnumWindows : list HWND;
  GetGUIThreadInfo_ret : bool;
  hwndActive : HWND;
  GetDesktopWindow : HWND;
  (** handleprops *)
  handleprops_parent : HWND -> HWND;
  handleprops_children : HWND -> list HWND;
  handleprops_controlid : HWND -> Z;
  handleprops_classname : HWND -> string;
  handleprops_processid : HWND -> Z;
  handleprops_text : HWND -> option string;
  handleprops_isvisible : HWND -> bool;
  handleprops_isenabled : HWND -> bool;
  (** elementInfo and UIAElementInfo: constructors, properties, [==] *)
  UIAElementInfo : option HWND -> ElementInfo;
  NativeElementInfo : HWND -> ElementInfo;
  ei_handle : ElementInfo -> option HWND;
  ei_parent : ElementInfo -> option ElementInfo;
  ei_descendants : ElementInfo -> list ElementInfo;
  ei_controlId : ElementInfo -> Z;
  ei_className : ElementInfo -> string;
  ei_processId : ElementInfo -> Z;
  ei_windowText : ElementInfo -> option string;
  ei_visible : ElementInfo -> bool;
  ei_enabled : ElementInfo -> bool;
  ei_eq : ElementInfo -> ElementInfo -> bool;
  (** controls: [None] is InvalidWindowElement / InvalidWindowHandle *)
  WrapElement : ElementInfo -> option Wrapper;
  WrapHandle : HWND -> option Wrapper;
  wrapper_handle : Wrapper -> HWND;
  (** findbestmatch *)
  find_best_control_matches :
    string -> list Wrapper -> Outcome ElementInfo (list Wrapper);
  (** re: [None] is re.error; [re_match] is [pattern.match] on a str *)
  re_compile : string -> option Regex;
  re_match : Regex -> string -> bool;
  (** six.text_type on the kwargs dict *)
  text_type : forall PT ET : Type, Kwargs PT ET -> string
}.

Section Pipelines.

Context (P : Platform).

Abbreviation EI := (ElementInfo P).
Abbreviation Run := (M EI).

(** An imported function that may raise. *)
Definition lift {A} (o : Outcome EI A) : Run A := ([], o).

(** [re.compile(pattern)]. *)
Definition compile (pattern : string) : Run (Regex P) :=
  match re_compile P pattern with
  | Some r => ret r
  | None => raise re_error
  end.

(** [regex.match(t)]: a TypeError when [t] is None. *)
Definition regex_match (regex : Regex P) (t : option string) : Run bool :=
  match t with
  | Some s => ret (re_match P regex s)
  | None => raise TypeError
  end.

(** [x == s] for a property that is a str or None. *)
Definition text_eq (x : option string) (s : string) : bool :=
  match x with
  | Some t => String.eqb t s
  | None => false
  end.

(** Truth value of an element's [handle] (None and 0 are false). *)
Definition truthy_handle (h : option HWND) : bool :=
  match h with
  | Some z => Py.truthy_int z
  | None => false
  end.

(** lines 403-425 *)
Definition enum_windows : Run (list HWND) :=
  emit CallEnumWindows ;;;
  ret (EnumWindows P).

(** lines 428-434 *)
Definition enum_elements : Run (list EI) :=
  windows <- enum_windows ;;
  ret (map (fun handle => UIAElementInfo P (Some handle)) windows).

(** What population acquisition ends in: the [ctrl_index] short cut
    returns from the function, otherwise the pipeline goes on. *)
Inductive Acquired (A : Type) : Type :=
| ReturnNow (result : list EI)
| Population (elements : list A).

Arguments ReturnNow {A} result.
Arguments Population {A} elements.

(** lines 320-328: one query for the active window of the GUI thread. *)
Definition active_window : Run HWND :=
  emit CallGetGUIThreadInfo ;;;
  if GetGUIThreadInfo_ret P then ret (hwndActive P) else raise WinError.

(** The [found_index] message, ["... %d, but %d window/s found"]. *)
Definition found_index_message (found_index n : Z) : string :=
  ("found_index is specified as " ++ Py.fmt_d found_index ++ ", but "
     ++ Py.fmt_d n ++ " window/s found")%string.

(** lines 237-245 and 390-398 *)
Definition found_index_step {A} (found_index : option Z) (elements : list A)
  : Run (list A) :=
  match found_index with
  | Some i =>
      if i <? Py.len elements then ret (Py.slice elements i (i + 1))
      else raise (WindowNotFoundError
                    (Some (found_index_message i (Py.len elements))))
  | None => ret elements
  end.

(** *** find_elements *)

Section FindElements.

Variable kw : Kwargs (ParentArg EI) EI.

(** lines 129-132, and the truth value of [parent] afterwards: [None]
    for a parent that is None or 0.  An element object is taken to be
    true, as a Python object is unless its class says otherwise. *)
Definition element_parent : option EI :=
  match parent kw with
  | Some (ParentHandle h) =>
      if Py.truthy_int h then Some (UIAElementInfo P (Some h)) else None
  | Some (ParentInfo e) => Some e
  | None => None
  end.

(** [elem.parent == parent] *)
Definition has_parent (p elem : EI) : bool :=
  match ei_parent P elem with
  | Some q => ei_eq P q p
  | None => false
  end.

(** lines 134-154 *)
Definition acquire_elements : Run (Acquired EI) :=
  if Py.default true (top_level_only kw) then
    elements <- enum_elements ;;
    ret (Population
           match element_parent with
           | Some p => filter (has_parent p) elements
           | None => elements
           end)
  else
    let parent := Py.default (UIAElementInfo P None) element_parent in
    let elements := ei_descendants P parent in
    match ctrl_index kw with
    | Some i =>
        match Py.index elements i with
        | Some elem => ret (ReturnNow [elem])
        | None => raise IndexError
        end
    | None => ret (Population elements)
    end.

(** lines 156-157 *)
Definition control_id_elements (elements : list EI) : list EI :=
  match control_id kw with
  | Some id =>
      if Py.is_empty elements then elements
      else filter (fun elem => ei_controlId P elem =? id) elements
  | None => elements
  end.

(** lines 159-177: the first element whose handle is the active one *)
Definition active_only_elements (elements : list EI) : Run (list EI) :=
  if Py.default false (active_only kw) then
    active <- active_window ;;
    ret match find (fun elem =>
                      match ei_handle P elem with
                      | Some h => h =? active
                      | None => false
                      end) elements with
        | Some elem => [elem]
        | None => []
        end
  else ret elements.

(** lines 183-184 *)
Definition class_name_elements (elements : list EI) : list EI :=
  match class_name kw with
  | Some c => filter (fun elem => String.eqb (ei_className P elem) c) elements
  | None => elements
  end.

(** lines 186-188 *)
Definition class_name_re_elements (elements : list EI) : Run (list EI) :=
  match class_name_re kw with
  | Some pattern =>
      class_name_regex <- compile pattern ;;
      ret (filter (fun elem => re_match P class_name_regex (ei_className P elem))
                  elements)
  | None => ret elements
  end.

(** lines 190-191 *)
Definition process_elements (elements : list EI) : list EI :=
  match process kw with
  | Some pid => filter (fun elem => ei_processId P elem =? pid) elements
  | None => elements
  end.

(** lines 198-202 *)
Definition _title_match (title_regex : Regex P) (w : EI) : Run bool :=
  let t := ei_windowText P w in
  match t with
  | Some _ => regex_match title_regex t
  | None => ret false
  end.

(** lines 193-203 *)
Definition title_elements (elements : list EI) : Run (list EI) :=
  match title kw with
  | Some s => ret (filter (fun elem => text_eq (ei_windowText P elem) s) elements)
  | None =>
      match title_re kw with
      | Some pattern =>
          title_regex <- compile pattern ;;
          filterM (_title_match title_regex) elements
      | None => ret elements
      end
  end.

(** lines 205-206 *)
Definition visible_elements (elements : list EI) : list EI :=
  if Py.default true (visible_only kw) then filter (ei_visible P) elements
  else elements.

(** lines 208-209 *)
Definition enabled_elements (elements : list EI) : list EI :=
  if Py.default false (enabled_only kw) then filter (ei_enabled P) elements
  else elements.

(** lines 213-224: elements without a handle and elements that cannot
    be wrapped are skipped *)
Definition wrap_elements (elements : list EI) : list (Wrapper P) :=
  flat_map (fun elem =>
              if truthy_handle (ei_handle P elem) then
                match WrapElement P elem with
                | Some w => [w]
                | None => []
                end
              else []) elements.

(** lines 211-232 *)
Definition best_match_elements (elements : list EI) : Run (list EI) :=
  match best_match kw with
  | Some target =>
      emit (Stdout ("best_match =  " ++ Py.fmt_d (Py.len elements))%string) ;;;
      let wrapped_elems := wrap_elements elements in
      matches <- lift (find_best_control_matches P target wrapped_elems) ;;
      ret (map (fun elem => UIAElementInfo P (Some (wrapper_handle P elem)))
               matches)
  | None => ret elements
  end.

(** lines 234-235.  [predicate_func] is taken to answer for every
    element; a predicate that raises is not modelled (line 235 has no
    try/except, its exception would leave the call). *)
Definition predicate_elements (elements : list EI) : list EI :=
  match predicate_func kw with
  | Some f => filter f elements
  | None => elements
  end.

(** lines 183-235: every step between the early stop and
    [found_index] *)
Definition filter_elements (elements : list EI) : Run (list EI) :=
  let elements := class_name_elements elements in
  elements <- class_name_re_elements elements ;;
  let elements := process_elements elements in
  elements <- title_elements elements ;;
  let elements := visible_elements elements in
  let elements := enabled_elements elements in
  elements <- best_match_elements elements ;;
  ret (predicate_elements elements).

(** lines 124-235: everything before the [found_index] step.  [ReturnNow]
    is a [return] statement reached on the way (the handle of line 127,
    the [ctrl_index] short cut of line 154, the early stop of line 181);
    [Population] is the list that reaches line 237. *)
Definition narrow_elements : Run (Acquired EI) :=
  match handle kw with
  | Some h => ret (ReturnNow [UIAElementInfo P (Some h)])
  | None =>
      acquired <- acquire_elements ;;
      match acquired with
      | ReturnNow result => ret (ReturnNow result)
      | Population elements =>
          let elements := control_id_elements elements in
          elements <- active_only_elements elements ;;
          if Py.is_empty elements then ret (ReturnNow elements)
          else
            elements <- filter_elements elements ;;
            ret (Population elements)
      end
  end.

(** lines 85-247 *)
Definition find_elements : Run (list EI) :=
  narrowed <- narrow_elements ;;
  match narrowed with
  | ReturnNow result => ret result
  | Population elements => found_index_step (found_index kw) elements
  end.

End FindElements.

(** *** find_windows *)

Section FindWindows.

Variable kw : Kwargs HWND HWND.

(** The truth value of [parent] (lines 298 and 305): [None] for a parent
    that is None or 0. *)
Definition window_parent : option HWND :=
  match parent kw with
  | Some h => if Py.truthy_int h then Some h else None
  | None => None
  end.

(** lines 293-314 *)
Definition acquire_windows : Run (Acquired HWND) :=
  if Py.default true (top_level_only kw) then
    windows <- enum_windows ;;
    ret (Population
           match window_parent with
           | Some p => filter (fun win => handleprops_parent P win =? p) windows
           | None => windows
           end)
  else
    parent <- match window_parent with
              | Some p => ret p
              | None => emit CallGetDesktopWindow ;;; ret (GetDesktopWindow P)
              end ;;
    let windows := handleprops_children P parent in
    match ctrl_index kw with
    | Some i =>
        match Py.index windows i with
        | Some win => ret (ReturnNow [NativeElementInfo P win])
        | None => raise IndexError
        end
    | None => ret (Population windows)
    end.

(** lines 316-318 *)
Definition control_id_windows (windows : list HWND) : list HWND :=
  match control_id kw with
  | Some id =>
      if Py.is_empty windows then windows
      else filter (fun win => handleprops_controlid P win =? id) windows
  | None => windows
  end.

(** lines 320-333 *)
Definition active_only_windows (windows : list HWND) : Run (list HWND) :=
  if Py.default false (active_only kw) then
    active <- active_window ;;
    ret (if existsb (fun win => win =? active) windows then [active] else [])
  else ret windows.

(** lines 339-341 *)
Definition class_name_windows (windows : list HWND) : list HWND :=
  match class_name kw with
  | Some c => filter (fun win => String.eqb c (handleprops_classname P win)) windows
  | None => windows
  end.

(** lines 343-346 *)
Definition class_name_re_windows (windows : list HWND) : Run (list HWND) :=
  match class_name_re kw with
  | Some pattern =>
      class_name_regex <- compile pattern ;;
      ret (filter (fun win => re_match P class_name_regex (handleprops_classname P win))
                  windows)
  | None => ret windows
  end.

(** lines 348-350 *)
Definition process_windows (windows : list HWND) : list HWND :=
  match process kw with
  | Some pid => filter (fun win => handleprops_processid P win =? pid) windows
  | None => windows
  end.

(** lines 358-362 *)
Definition _title_match_window (title_regex : Regex P) (w : HWND) : Run bool :=
  let t := handleprops_text P w in
  match t with
  | Some _ => regex_match title_regex t
  | None => ret false
  end.

(** lines 352-363 *)
Definition title_windows (windows : list HWND) : Run (list HWND) :=
  match title kw with
  | Some s => ret (filter (fun win => text_eq (handleprops_text P win) s) windows)
  | None =>
      match title_re kw with
      | Some pattern =>
          title_regex <- compile pattern ;;
          filterM (_title_match_window title_regex) windows
      | None => ret windows
      end
  end.

(** lines 365-366 *)
Definition visible_windows (windows : list HWND) : list HWND :=
  if Py.default true (visible_only kw) then filter (handleprops_isvisible P) windows
  else windows.

(** lines 368-369 *)
Definition enabled_windows (windows : list HWND) : list HWND :=
  if Py.default false (enabled_only kw) then filter (handleprops_isenabled P) windows
  else windows.

(** lines 372-380: handles that cannot be wrapped are skipped *)
Definition wrap_windows (windows : list HWND) : list (Wrapper P) :=
  flat_map (fun win =>
              match WrapHandle P win with
              | Some w => [w]
              | None => []
              end) windows.

(** lines 371-385 *)
Definition best_match_windows (windows : list HWND) : Run (list HWND) :=
  match best_match kw with
  | Some target =>
      let wrapped_wins := wrap_windows windows in
      matches <- lift (find_best_control_matches P target wrapped_wins) ;;
      ret (map (wrapper_handle P) matches)
  | None => ret windows
  end.

(** lines 387-388.  As in [find_elements], [predicate_func] is taken to
    answer for every handle; a predicate that raises is not modelled. *)
Definition predicate_windows (windows : list HWND) : list HWND :=
  match predicate_func kw with
  | Some f => filter f windows
  | None => windows
  end.

(** lines 339-388: every step between the early stop and [found_index] *)
Definition filter_windows (windows : list HWND) : Run (list HWND) :=
  let windows := class_name_windows windows in
  windows <- class_name_re_windows windows ;;
  let windows := process_windows windows in
  windows <- title_windows windows ;;
  let windows := visible_windows windows in
  let windows := enabled_windows windows in
  windows <- best_match_windows windows ;;
  ret (predicate_windows windows).

(** lines 288-388: everything before the [found_index] step.  [ReturnNow]
    is a [return] statement reached on the way (lines 291, 314 and 337; the
    early stop returns the empty list as it is); [Population] is the list
    of handles that reaches line 390. *)
Definition narrow_windows : Run (Acquired HWND) :=
  match handle kw with
  | Some h => ret (ReturnNow [NativeElementInfo P h])
  | None =>
      acquired <- acquire_windows ;;
      match acquired with
      | ReturnNow result => ret (ReturnNow result)
      | Population windows =>
          let windows := control_id_windows windows in
          windows <- active_only_windows windows ;;
          if Py.is_empty windows then ret (ReturnNow [])
          else
            windows <- filter_windows windows ;;
            ret (Population windows)
      end
  end.

(** lines 250-400: the last line wraps every handle *)
Definition find_windows : Run (list EI) :=
  narrowed <- narrow_windows ;;
  match narrowed with
  | ReturnNow result => ret result
  | Population windows =>
      windows <- found_index_step (found_index kw) windows ;;
      ret (map (NativeElementInfo P) windows)
  end.

End FindWindows.

(** *** find_window *)

(** What [parent] and the argument of [predicate_func] are, by the pipeline
    [find_window] delegates to. *)
Definition parent_type (uia : bool) : Type :=
  if uia then ParentArg EI else HWND.

Definition item_type (uia : bool) : Type :=
  if uia then EI else HWND.

(** lines 60-63 *)
Definition pipeline (uia : bool)
  : Kwargs (parent_type uia) (item_type uia) -> Run (list EI) :=
  match uia with
  | true => find_elements
  | false => find_windows
  end.

(** The message of the ambiguity, ["There are %d windows ... %s"]. *)
Definition ambiguous_message (n : Z) (criteria : string) : string :=
  ("There are " ++ Py.fmt_d n ++ " windows that match the criteria "
     ++ criteria)%string.

(** lines 65-82 *)
Definition exactly_one {PT ET} (kwargs : Kwargs PT ET) (windows : list EI)
  : Run EI :=
  if Py.is_empty windows then raise (WindowNotFoundError None)
  else if 1 <? Py.len windows then
    raise (WindowAmbiguousError
             (ambiguous_message (Py.len windows) (text_type P kwargs))
             windows)
  else
    match Py.index windows 0 with
    | Some w => ret w
    | None => raise IndexError
    end.

(** lines 55-82 *)
Definition find_window
  (kwargs : Kwargs (parent_type (UIA_support P)) (item_type (UIA_support P)))
  : Run EI :=
  windows <- pipeline (UIA_support P) kwargs ;;
  exactly_one kwargs windows.

End Pipelines.

Arguments ReturnNow {P A} result.
Arguments Population {P A} elements.

Arguments find_elements P kw : clear implicits.
Arguments find_windows P kw : clear implicits.
Arguments find_window P kwargs : clear implicits.

(** ** Changing one keyword of a call *)

Section Keywords.

Context {PT ET : Type}.

Definition with_title_re (v : option string) (kw : Kwargs PT ET) : Kwargs PT ET :=
  mkKwargs (class_name kw) (class_name_re kw) (parent kw) (process kw)
           (title kw) v (top_level_only kw) (visible_only kw)
           (enabled_only kw) (best_match kw) (handle kw) (ctrl_index kw)
           (found_index kw) (predicate_func kw) (active_only kw)
           (control_id kw).

Definition with_class_name_re (v : option string) (kw : Kwargs PT ET) : Kwargs PT ET :=
  mkKwargs (class_name kw) v (parent kw) (process kw)
           (title kw) (title_re kw) (top_level_only kw) (visible_only kw)
           (enabled_only kw) (best_match kw) (handle kw) (ctrl_index kw)
           (found_index kw) (predicate_func kw) (active_only kw)
           (control_id kw).

Definition with_found_index (v : option Z) (kw : Kwargs PT ET) : Kwargs PT ET :=
  mkKwargs (class_name kw) (class_name_re kw) (parent kw) (process kw)
           (title kw) (title_re kw) (top_level_only kw) (visible_only kw)
           (enabled_only kw) (best_match kw) (handle kw) (ctrl_index kw)
           v (predicate_func kw) (active_only kw)
           (control_id kw).

End Keywords.

(** ** A small desktop

    A concrete platform to run the pipelines on: six windows, element
    objects that are their handle ([None] is the root of the tree),
    patterns that are literal prefixes, and a matcher that keeps the
    candidates whose text starts with the target. *)

Module Desk.

Record Window : Type := {
  w_handle : HWND;
  w_parent : HWND;
  w_class : string;
  w_text : option string;
  w_pid : Z;
  w_id : Z;
  w_visible : bool;
  w_enabled : bool
}.

Definition all_windows : list Window :=
  [ Build_Window 100 0 "Notepad" (Some "Untitled - Notepad") 7 0 true true;
    Build_Window 101 100 "Edit" (Some "") 7 15 true true;
    Build_Window 102 100 "Button" (Some "OK") 7 1 true false;
    Build_Window 200 0 "CalcFrame" (Some "Calculator") 8 0 true true;
    Build_Window 300 0 "Ghost" None 9 0 true true;
    Build_Window 400 0 "Notepad" (Some "notes - Notepad") 7 0 false true ].

Definition lookup (h : HWND) : option Window :=
  find (fun w => w_handle w =? h) all_windows.

Definition prop {A} (f : Window -> A) (d : A) (h : HWND) : A :=
  match lookup h with Some w => f w | None => d end.

Definition children (p : HWND) : list HWND :=
  map w_handle (filter (fun w => w_parent w =? p) all_windows).

Definition desktop_window : HWND := 1.

Definition Element : Type := option HWND.

Definition element_prop {A} (f : Window -> A) (d : A) (e : Element) : A :=
  match e with Some h => prop f d h | None => d end.

Definition element_eq (a b : Element) : bool :=
  match a, b with
  | Some x, Some y => x =? y
  | None, None => true
  | _, _ => false
  end.

Definition platform (uia : bool) : Platform := {|
  ElementInfo := Element;
  Wrapper := HWND;
  Regex := string;
  UIA_support := uia;
  EnumWindows := children 0;
  GetGUIThreadInfo_ret := true;
  hwndActive := 100;
  GetDesktopWindow := desktop_window;
  handleprops_parent := prop w_parent 0;
  handleprops_children := fun p => if p =? desktop_window then children 0 else children p;
  handleprops_controlid := prop w_id 0;
  handleprops_classname := prop w_class "";
  handleprops_processid := prop w_pid 0;
  handleprops_text := prop w_text None;
  handleprops_isvisible := prop w_visible false;
  handleprops_isenabled := prop w_enabled false;
  UIAElementInfo := fun h => h;
  NativeElementInfo := fun h => Some h;
  ei_handle := fun e => e;
  ei_parent := fun e =>
    match e with
    | Some h => Some (let p := prop w_parent 0 h in if p =? 0 then None else Some p)
    | None => None
    end;
  ei_descendants := fun e =>
    match e with
    | Some h => map Some (children h)
    | None => map (fun w => Some (w_handle w)) all_windows
    end;
  ei_controlId := element_prop w_id 0;
  ei_className := element_prop w_class "";
  ei_processId := element_prop w_pid 0;
  ei_windowText := element_prop w_text None;
  ei_visible := element_prop w_visible false;
  ei_enabled := element_prop w_enabled false;
  ei_eq := element_eq;
  WrapElement := fun e =>
    match e with
    | Some h => match lookup h with Some _ => Some h | None => None end
    | None => None
    end;
  WrapHandle := fun h => match lookup h with Some _ => Some h | None => None end;
  wrapper_handle := fun w => w;
  find_best_control_matches := fun target candidates =>
    Return (filter (fun w => match prop w_text None w with
                             | Some t => String.prefix target t
                             | None => false
                             end) candidates);
  re_compile := fun pattern => if String.eqb pattern "(" then None else Some pattern;
  re_match := String.prefix;
  text_type := fun _ _ _ => "{...}"
|}.

Definition uia : Platform := platform true.
Definition native : Platform := platform false.

(** Calls made on the desktop. *)
Definition kw_elements : Type := Kwargs (ParentArg Element) Element.
Definition kw_windows : Type := Kwargs HWND HWND.

Definition call {PT ET} : Kwargs PT ET := no_kwargs.

Definition set_class_name {PT ET} (v : string) (kw : Kwargs PT ET) : Kwargs PT ET :=
  mkKwargs (Some v) (class_name_re kw) (parent kw) (process kw)
           (title kw) (title_re kw) (top_level_only kw) (visible_only kw)
           (enabled_only kw) (best_match kw) (handle kw) (ctrl_index kw)
           (found_index kw) (predicate_func kw) (active_only kw)
           (control_id kw).

Definition set_handle {PT ET} (v : HWND) (kw : Kwargs PT ET) : Kwargs PT ET :=
  mkKwargs (class_name kw) (class_name_re kw) (parent kw) (process kw)
           (title kw) (title_re kw) (top_level_only kw) (visible_only kw)
           (enabled_only kw) (best_match kw) (Some v) (ctrl_index kw)
           (found_index kw) (predicate_func kw) (active_only kw)
           (control_id kw).

Definition set_found_index {PT ET} (v : Z) (kw : Kwargs PT ET) : Kwargs PT ET :=
  mkKwargs (class_name kw) (class_name_re kw) (parent kw) (process kw)
           (title kw) (title_re kw) (top_level_only kw) (visible_only kw)
           (enabled_only kw) (best_match kw) (handle kw) (ctrl_index kw)
           (Some v) (predicate_func kw) (active_only kw)
           (control_id kw).

Definition set_ctrl_index {PT ET} (v : Z) (kw : Kwargs PT ET) : Kwargs PT ET :=
  mkKwargs (class_name kw) (class_name_re kw) (parent kw) (process kw)
           (title kw) (title_re kw) (top_level_only kw) (visible_only kw)
           (enabled_only kw) (best_match kw) (handle kw) (Some v)
           (found_index kw) (predicate_func kw) (active_only kw)
           (control_id kw).

Definition set_control_id {PT ET} (v : Z) (kw : Kwargs PT ET) : Kwargs PT ET :=
  mkKwargs (class_name kw) (class_name_re kw) (parent kw) (process kw)
           (title kw) (title_re kw) (top_level_only kw) (visible_only kw)
           (enabled_only kw) (best_match kw) (handle kw) (ctrl_index kw)
           (found_index kw) (predicate_func kw) (active_only kw)
           (Some v).

Definition set_top_level_only {PT ET} (v : bool) (kw : Kwargs PT ET) : Kwargs PT ET :=
  mkKwargs (class_name kw) (class_name_re kw) (parent kw) (process kw)
           (title kw) (title_re kw) (Some v) (visible_only kw)
           (enabled_only kw) (best_match kw) (handle kw) (ctrl_index kw)
           (found_index kw) (predicate_func kw) (active_only kw)
           (control_id kw).

Definition set_visible_only {PT ET} (v : bool) (kw : Kwargs PT ET) : Kwargs PT ET :=
  mkKwargs (class_name kw) (class_name_re kw) (parent kw) (process kw)
           (title kw) (title_re kw) (top_level_only kw) (Some v)
           (enabled_only kw) (best_match kw) (handle kw) (ctrl_index kw)
           (found_index kw) (predicate_func kw) (active_only kw)
           (control_id kw).

Definition set_active_only {PT ET} (v : bool) (kw : Kwargs PT ET) : Kwargs PT ET :=
  mkKwargs (class_name kw) (class_name_re kw) (parent kw) (process kw)
           (title kw) (title_re kw) (top_level_only kw) (visible_only kw)
           (enabled_only kw) (best_match kw) (handle kw) (ctrl_index kw)
           (found_index kw) (predicate_func kw) (Some v)
           (control_id kw).

Definition set_title {PT ET} (v : string) (kw : Kwargs PT ET) : Kwargs PT ET :=
  mkKwargs (class_name kw) (class_name_re kw) (parent kw) (process kw)
           (Some v) (title_re kw) (top_level_only kw) (visible_only kw)
           (enabled_only kw) (best_match kw) (handle kw) (ctrl_index kw)
           (found_index kw) (predicate_func kw) (active_only kw)
           (control_id kw).

Definition set_best_match {PT ET} (v : string) (kw : Kwargs PT ET) : Kwargs PT ET :=
  mkKwargs (class_name kw) (class_name_re kw) (parent kw) (process kw)
           (title kw) (title_re kw) (top_level_only kw) (visible_only kw)
           (enabled_only kw) (Some v) (handle kw) (ctrl_index kw)
           (found_index kw) (predicate_func kw) (active_only kw)
           (control_id kw).

End Desk.

(** ** The population of a call *)

(** What the acquisition mode of [find_elements] starts from (lines 136 and
    149): every top-level element, or every descendant of the parent (of
    the root when no parent is given). *)
Definition initial_population (P : Platform)
  (kw : Kwargs (ParentArg (ElementInfo P)) (ElementInfo P))
  : list (ElementInfo P) :=
  if Py.default true (top_level_only kw) then
    map (fun handle => UIAElementInfo P (Some handle)) (EnumWindows P)
  else
    ei_descendants P (Py.default (UIAElementInfo P None) (element_parent P kw)).

(** The best-match stage gives back members of the population: whatever
    the matcher returns for candidates taken from the population is turned
    by [UIAElementInfo(elem.handle)] into an element of the population. *)
Definition matcher_stays_in_population (P : Platform)
  (kw : Kwargs (ParentArg (ElementInfo P)) (ElementInfo P)) : Prop :=
  forall target candidates matches,
    best_match kw = Some target ->
    incl candidates (initial_population P kw) ->
    find_best_control_matches P target (wrap_elements P candidates)
    = Return matches ->
    forall w, In w matches ->
              In (UIAElementInfo P (Some (wrapper_handle P w)))
                 (initial_population P kw).

(** ** The criteria as one condition *)

Definition with_parent {PT ET} (v : option PT) (kw : Kwargs PT ET) : Kwargs PT ET :=
  mkKwargs (class_name kw) (class_name_re kw) v (process kw)
           (title kw) (title_re kw) (top_level_only kw) (visible_only kw)
           (enabled_only kw) (best_match kw) (handle kw) (ctrl_index kw)
           (found_index kw) (predicate_func kw) (active_only kw)
           (control_id kw).

(** A pattern keyword that is absent or compiles. *)
Definition pattern_ok (P : Platform) (pattern : option string) : bool :=
  match pattern with
  | Some s => match re_compile P s with Some _ => true | None => false end
  | None => true
  end.

(** The patterns [re.compile] is called on (lines 187 and 197): always
    [class_name_re], and [title_re] when [title] is not given. *)
Definition patterns_compile {PT ET} (P : Platform) (kw : Kwargs PT ET) : bool :=
  pattern_ok P (class_name_re kw)
  && match title kw with
     | Some _ => true
     | None => pattern_ok P (title_re kw)
     end.

(** [s] matches an optional pattern. *)
Definition matches_pattern (P : Platform) (pattern : option string) (s : string)
  : bool :=
  match pattern with
  | Some pat =>
      match re_compile P pat with
      | Some regex => re_match P regex s
      | None => false
      end
  | None => true
  end.

(** The title condition of lines 193-203 on a text that may be None. *)
Definition title_passes {PT ET} (P : Platform) (kw : Kwargs PT ET)
  (text : option string) : bool :=
  match title kw with
  | Some s => text_eq text s
  | None =>
      match title_re kw with
      | Some pat =>
          match text with
          | Some t => matches_pattern P (Some pat) t
          | None => false
          end
      | None => true
      end
  end.

(** An element passes every criterion of lines 183-235 but [best_match]. *)
Definition element_passes (P : Platform)
  (kw : Kwargs (ParentArg (ElementInfo P)) (ElementInfo P))
  (elem : ElementInfo P) : bool :=
  match class_name kw with
  | Some c => String.eqb (ei_className P elem) c
  | None => true
  end
  && matches_pattern P (class_name_re kw) (ei_className P elem)
  && match process kw with
     | Some pid => ei_processId P elem =? pid
     | None => true
     end
  && title_passes P kw (ei_windowText P elem)
  && (if Py.default true (visible_only kw) then ei_visible P elem else true)
  && (if Py.default false (enabled_only kw) then ei_enabled P elem else true)
  && match predicate_func kw with
     | Some f => f elem
     | None => true
     end.

(** ... and [control_id] as well (line 157). *)
Definition element_satisfies (P : Platform)
  (kw : Kwargs (ParentArg (ElementInfo P)) (ElementInfo P))
  (elem : ElementInfo P) : bool :=
  match control_id kw with
  | Some id => ei_controlId P elem =? id
  | None => true
  end
  && element_passes P kw elem.

(** The same for a window handle (lines 339-388 and 318). *)
Definition window_passes (P : Platform) (kw : Kwargs HWND HWND) (win : HWND)
  : bool :=
  match class_name kw with
  | Some c => String.eqb c (handleprops_classname P win)
  | None => true
  end
  && matches_pattern P (class_name_re kw) (handleprops_classname P win)
  && match process kw with
     | Some pid => handleprops_processid P win =? pid
     | None => true
     end
  && title_passes P kw (handleprops_text P win)
  && (if Py.default true (visible_only kw) then handleprops_isvisible P win else true)
  && (if Py.default false (enabled_only kw) then handleprops_isenabled P win else true)
  && match predicate_func kw with
     | Some f => f win
     | None => true
     end.

Definition window_satisfies (P : Platform) (kw : Kwargs HWND HWND) (win : HWND)
  : bool :=
  match control_id kw with
  | Some id => handleprops_controlid P win =? id
  | None => true
  end
  && window_passes P kw win.

(** The native calls of the acquisition of [find_windows] (lines 293-309). *)
Definition acquisition_calls (kw : Kwargs HWND HWND) : list Event :=
  if Py.default true (top_level_only kw) then [CallEnumWindows]
  else match window_parent kw with
       | Some _ => []
       | None => [CallGetDesktopWindow]
       end.

(** Whether a call gets past the [ctrl_index] short cut of lines 153-154
    and 313-314. *)
Definition past_ctrl_index {PT ET} (kw : Kwargs PT ET) : bool :=
  Py.default true (top_level_only kw)
  || match ctrl_index kw with Some _ => false | None => true end.

(** A platform on which the query for the active window fails, and
    everything else is as on [P]. *)
Definition query_failing (P : Platform) : Platform := {|
  ElementInfo := ElementInfo P;
  Wrapper := Wrapper P;
  Regex := Regex P;
  UIA_support := UIA_support P;
  EnumWindows := EnumWindows P;
  GetGUIThreadInfo_ret := false;
  hwndActive := hwndActive P;
  GetDesktopWindow := GetDesktopWindow P;
  handleprops_parent := handleprops_parent P;
  handleprops_children := handleprops_children P;
  handleprops_controlid := handleprops_controlid P;
  handleprops_classname := handleprops_classname P;
  handleprops_processid := handleprops_processid P;
  handleprops_text := handleprops_text P;
  handleprops_isvisible := handleprops_isvisible P;
  handleprops_isenabled := handleprops_isenabled P;
  UIAElementInfo := UIAElementInfo P;
  NativeElementInfo := NativeElementInfo P;
  ei_handle := ei_handle P;
  ei_parent := ei_parent P;
  ei_descendants := ei_descendants P;
  ei_controlId := ei_controlId P;
  ei_className := ei_className P;
  ei_processId := ei_processId P;
  ei_windowText := ei_windowText P;
  ei_visible := ei_visible P;
  ei_enabled := ei_enabled P;
  ei_eq := ei_eq P;
  WrapElement := WrapElement P;
  WrapHandle := WrapHandle P;
  wrapper_handle := wrapper_handle P;
  find_best_control_matches := find_best_control_matches P;
  re_compile := re_compile P;
  re_match := re_match P;
  text_type := text_type P
|}.

(** A platform on which [EnumWindows] reports the handles [windows], and
    everything else is as on [P]. *)
Definition enumerating (windows : list HWND) (P : Platform) : Platform := {|
  ElementInfo := ElementInfo P;
  Wrapper := Wrapper P;
  Regex := Regex P;
  UIA_support := UIA_support P;
  EnumWindows := windows;
  GetGUIThreadInfo_ret := GetGUIThreadInfo_ret P;
  hwndActive := hwndActive P;
  GetDesktopWindow := GetDesktopWindow P;
  handleprops_parent := handleprops_parent P;
  handleprops_children := handleprops_children P;
  handleprops_controlid := handleprops_controlid P;
  handleprops_classname := handleprops_classname P;
  handleprops_processid := handleprops_processid P;
  handleprops_text := handleprops_text P;
  handleprops_isvisible := handleprops_isvisible P;
  handleprops_isenabled := handleprops_isenabled P;
  UIAElementInfo := UIAElementInfo P;
  NativeElementInfo := NativeElementInfo P;
  ei_handle := ei_handle P;
  ei_parent := ei_parent P;
  ei_descendants := ei_descendants P;
  ei_controlId := ei_controlId P;
  ei_className := ei_className P;
  ei_processId := ei_processId P;
  ei_windowText := ei_windowText P;
  ei_visible := ei_visible P;
  ei_enabled := ei_enabled P;
  ei_eq := ei_eq P;
  WrapElement := WrapElement P;
  WrapHandle := WrapHandle P;
  wrapper_handle := wrapper_handle P;
  find_best_control_matches := find_best_control_matches P;
  re_compile := re_compile P;
  re_match := re_match P;
  text_type := text_type P
|}.

(** What the acquisition mode of [find_windows] starts from (lines 295 and
    309): every top-level window, or every child of the parent (of the
    desktop window when no parent is given). *)
Definition initial_windows (P : Platform) (kw : Kwargs HWND HWND) : list HWND :=
  if Py.default true (top_level_only kw) then EnumWindows P
  else handleprops_children P
         (Py.default (GetDesktopWindow P) (window_parent kw)).

(** * Properties *)

Unset Implicit Arguments.

(** ** Runs *)

Lemma outcome_bind {EI A B} (m : M EI A) (k : A -> M EI B) :
  outcome (bind m k)
  = match outcome m with
    | Return a => outcome (k a)
    | Raise e => Raise e
    end.
Proof.
  destruct m as [log [a | e]]; simpl; [| reflexivity].
  destruct (k a); reflexivity.
Qed.

Lemma events_bind {EI A B} (m : M EI A) (k : A -> M EI B) :
  events (bind m k)
  = events m ++ match outcome m with
                | Return a => events (k a)
                | Raise _ => []
                end.
Proof.
  destruct m as [log [a | e]]; simpl.
  - destruct (k a); reflexivity.
  - now rewrite app_nil_r.
Qed.

Lemma run_eta {EI A} (m : M EI A) : m = (events m, outcome m).
Proof. now destruct m. Qed.

Lemma calls_bind {EI A B} ev (m : M EI A) (k : A -> M EI B) :
  calls ev (bind m k)
  = (calls ev m + match outcome m with
                  | Return a => calls ev (k a)
                  | Raise _ => 0
                  end)%nat.
Proof.
  unfold calls. rewrite events_bind, count_occ_app.
  destruct (outcome m); reflexivity.
Qed.

(** A comprehension keeps elements of its list, in those for which the
    condition returned true. *)
Lemma filterM_Return {EI A} (p : A -> M EI bool) (l res : list A) :
  outcome (filterM p l) = Return res ->
  forall x, In x res -> In x l /\ outcome (p x) = Return true.
Proof.
  revert res. induction l as [| a l IH]; simpl; intros res H x Hx.
  - inversion H; subst. destruct Hx.
  - rewrite outcome_bind in H.
    destruct (outcome (p a)) as [b |] eqn:Hb; [| discriminate].
    rewrite outcome_bind in H.
    destruct (outcome (filterM p l)) as [rest |] eqn:Hr; [| discriminate].
    simpl in H. inversion H; subst; clear H.
    destruct b.
    + destruct Hx as [<- | Hx]; [now split; [left |] |].
      destruct (IH rest eq_refl x Hx). split; [now right | assumption].
    + destruct (IH rest eq_refl x Hx). split; [now right | assumption].
Qed.

(** A comprehension whose condition neither raises nor does anything is
    [filter]. *)
Lemma filterM_pure {EI A} (p : A -> M EI bool) (q : A -> bool) (l : list A) :
  (forall x, In x l -> p x = ret (q x)) ->
  filterM p l = ret (filter q l).
Proof.
  induction l as [| a l IH]; simpl; intros H; [reflexivity |].
  rewrite (H a (or_introl eq_refl)), IH by (intros; apply H; now right).
  simpl. destruct (q a); reflexivity.
Qed.

(** ** Python lists *)

Lemma len_nonneg {A} (l : list A) : 0 <= Py.len l.
Proof. unfold Py.len. lia. Qed.

Lemma firstn_1_skipn {A} (l : list A) n x :
  nth_error l n = Some x -> firstn 1 (skipn n l) = [x].
Proof.
  revert l; induction n as [| n IH]; intros [| a l] H; simpl in *;
    try discriminate.
  - now inversion H.
  - now apply IH.
Qed.

Lemma nth_error_in_range {A} (l : list A) (k : Z) :
  0 <= k < Py.len l -> exists x, nth_error l (Z.to_nat k) = Some x.
Proof.
  unfold Py.len. intros H.
  destruct (nth_error l (Z.to_nat k)) as [x |] eqn:E; [now exists x |].
  apply nth_error_None in E. lia.
Qed.

(** [l[i:i+1]] for an index in range is the element at [i]. *)
Lemma slice_at {A} (l : list A) i x :
  0 <= i < Py.len l -> nth_error l (Z.to_nat i) = Some x ->
  Py.slice l i (i + 1) = [x].
Proof.
  intros H Hx. unfold Py.slice, Py.clip.
  destruct (i <? 0) eqn:E1; [lia |].
  destruct (i + 1 <? 0) eqn:E2; [lia |].
  replace (Z.min (i + 1) (Py.len l) - Z.min i (Py.len l)) with 1 by lia.
  replace (Z.min i (Py.len l)) with i by lia.
  now apply firstn_1_skipn.
Qed.

(** [l[i:i+1]] for a negative index other than -1 is the element [-i]
    places from the end. *)
Lemma slice_from_end {A} (l : list A) i x :
  2 <= - i <= Py.len l -> nth_error l (Z.to_nat (Py.len l + i)) = Some x ->
  Py.slice l i (i + 1) = [x].
Proof.
  intros H Hx. unfold Py.slice, Py.clip.
  destruct (i <? 0) eqn:E1; [| lia].
  destruct (i + 1 <? 0) eqn:E2; [| lia].
  replace (Z.max (i + 1 + Py.len l) 0 - Z.max (i + Py.len l) 0) with 1 by lia.
  replace (Z.max (i + Py.len l) 0) with (Py.len l + i) by lia.
  now apply firstn_1_skipn.
Qed.

(** [l[-1:0]] is empty. *)
Lemma slice_last_empty {A} (l : list A) : Py.slice l (-1) (-1 + 1) = [].
Proof.
  pose proof (len_nonneg l) as H.
  unfold Py.slice, Py.clip.
  change (-1 <? 0) with true. change (-1 + 1 <? 0) with false.
  cbv iota.
  replace (Z.to_nat (Z.min (-1 + 1) (Py.len l) - Z.max (-1 + Py.len l) 0))
    with 0%nat by lia.
  reflexivity.
Qed.

Lemma In_firstn {A} n (l : list A) x : In x (firstn n l) -> In x l.
Proof.
  intros H. rewrite <- (firstn_skipn n l). apply in_or_app. now left.
Qed.

Lemma In_skipn {A} n (l : list A) x : In x (skipn n l) -> In x l.
Proof.
  intros H. rewrite <- (firstn_skipn n l). apply in_or_app. now right.
Qed.

Lemma slice_incl {A} (l : list A) i j : incl (Py.slice l i j) l.
Proof.
  unfold Py.slice. intros x Hx.
  apply In_firstn in Hx. now apply In_skipn in Hx.
Qed.

Lemma index_in_range {A} (l : list A) i :
  0 <= i < Py.len l -> Py.index l i = nth_error l (Z.to_nat i).
Proof.
  intros H. unfold Py.index.
  destruct (i <? 0) eqn:E; [lia |].
  destruct (i <? 0) eqn:E1; [lia |].
  destruct (Py.len l <=? i) eqn:E2; [lia | reflexivity].
Qed.

Lemma index_beyond {A} (l : list A) i : Py.len l <= i -> Py.index l i = None.
Proof.
  intros H. pose proof (len_nonneg l). unfold Py.index.
  destruct (i <? 0) eqn:E; [lia |].
  destruct (Py.len l <=? i) eqn:E2; [| lia].
  now rewrite orb_true_r.
Qed.

Lemma index_In {A} (l : list A) i x : Py.index l i = Some x -> In x l.
Proof.
  unfold Py.index.
  destruct (_ || _); [discriminate |]. apply nth_error_In.
Qed.

Lemma filter_filter {A} (p q : A -> bool) (l : list A) :
  filter q (filter p l) = filter (fun x => p x && q x) l.
Proof.
  induction l as [| a l IH]; simpl; [reflexivity |].
  destruct (p a); simpl; [destruct (q a) |]; now rewrite IH.
Qed.

(** ** The single-result resolver *)

(** C1.  [find_window] delegates to the pipeline chosen by
    [sysinfo.UIA_support] ([find_elements] with UIA, [find_windows]
    without).  When the pipeline returns a list: an empty list raises
    WindowNotFoundError (with no argument); two or more elements raise
    WindowAmbiguousError whose [windows] is the whole list and whose
    message is "There are <n> windows that match the criteria <kwargs>";
    exactly one element is returned.  Nothing is done besides what the
    pipeline did, and an exception of the pipeline is passed on. *)
Theorem find_window_exactly_one (P : Platform) :
  (pipeline P true = find_elements P /\ pipeline P false = find_windows P) /\
  forall kwargs log,
    (forall windows,
        pipeline P (UIA_support P) kwargs = (log, Return windows) ->
        find_window P kwargs
        = (log,
           match windows with
           | [] => Raise (WindowNotFoundError None)
           | [w] => Return w
           | _ :: _ :: _ =>
               Raise (WindowAmbiguousError
                        ("There are " ++ Py.fmt_d (Py.len windows)
                           ++ " windows that match the criteria "
                           ++ text_type P kwargs)%string
                        windows)
           end)) /\
    (forall e,
        pipeline P (UIA_support P) kwargs = (log, Raise e) ->
        find_window P kwargs = (log, Raise e)).
Proof.
  split; [split; reflexivity |].
  intros kwargs log. split.
  - intros windows H. unfold find_window. rewrite H.
    destruct windows as [| w [| w' ws]]; simpl; rewrite ?app_nil_r; try reflexivity.
    unfold exactly_one. simpl Py.is_empty. cbv iota.
    assert (E : (1 <? Py.len (w :: w' :: ws)) = true).
    { unfold Py.len. simpl List.length. apply Z.ltb_lt. lia. }
    rewrite E. simpl. now rewrite app_nil_r.
  - intros e H. unfold find_window. now rewrite H.
Qed.

Lemma find_window_exactly_one_witness :
  find_window Desk.uia Desk.call
  = ([CallEnumWindows],
     Raise (WindowAmbiguousError
              "There are 3 windows that match the criteria {...}"
              [Some 100; Some 200; Some 300]))
  /\ find_window Desk.native (Desk.set_class_name "Notepad" Desk.call)
     = ([CallEnumWindows], Return (Some 100)).
Proof.
  split.
  - apply (proj1 (proj2 (find_window_exactly_one Desk.uia) Desk.call
                        [CallEnumWindows])
                 [Some 100; Some 200; Some 300]).
    reflexivity.
  - apply (proj1 (proj2 (find_window_exactly_one Desk.native)
                        (Desk.set_class_name "Notepad" Desk.call)
                        [CallEnumWindows])
                 [Some 100]).
    reflexivity.
Defined.

(** ** Short cuts *)

(** C2.  With [handle] given, [find_elements] returns the one-element list
    [[UIAElementInfo(handle)]] and [find_windows] the one-element list
    [[NativeElementInfo(handle)]], without any native call; the result is
    the same for every value of every other keyword. *)
Theorem handle_short_circuit (P : Platform) (h : HWND) :
  (forall kw, handle kw = Some h ->
              find_elements P kw = ([], Return [UIAElementInfo P (Some h)])) /\
  (forall kw, handle kw = Some h ->
              find_windows P kw = ([], Return [NativeElementInfo P h])).
Proof.
  split; intros kw H.
  - unfold find_elements, narrow_elements. now rewrite H.
  - unfold find_windows, narrow_windows. now rewrite H.
Qed.

Lemma handle_short_circuit_witness :
  find_elements Desk.uia
    (Desk.set_found_index 7 (Desk.set_class_name "Notepad" (Desk.set_handle 999 Desk.call)))
  = ([], Return [Some 999])
  /\ find_windows Desk.native
       (Desk.set_ctrl_index 7 (Desk.set_top_level_only false (Desk.set_handle 999 Desk.call)))
     = ([], Return [Some 999]).
Proof.
  split.
  - apply (proj1 (handle_short_circuit Desk.uia 999)). reflexivity.
  - apply (proj2 (handle_short_circuit Desk.native 999)). reflexivity.
Defined.

(** C4.  In descendant mode ([top_level_only] false, no [handle]) with
    [ctrl_index] given: an index at or beyond the number of descendants
    (children, for [find_windows]) raises IndexError, which is not a
    WindowNotFoundError, so the index is not clamped; an index in range
    returns the one-element list with the element at that position of the
    unfiltered list. *)
Theorem ctrl_index_short_circuit (P : Platform) (i : Z) :
  (forall kw,
      handle kw = None -> top_level_only kw = Some false ->
      ctrl_index kw = Some i ->
      let elements :=
        ei_descendants P
          (Py.default (UIAElementInfo P None) (element_parent P kw)) in
      (Py.len elements <= i ->
       outcome (find_elements P kw) = Raise IndexError) /\
      (0 <= i < Py.len elements ->
       exists elem, nth_error elements (Z.to_nat i) = Some elem /\
                    outcome (find_elements P kw) = Return [elem])) /\
  (forall kw,
      handle kw = None -> top_level_only kw = Some false ->
      ctrl_index kw = Some i ->
      let windows :=
        handleprops_children P
          (Py.default (GetDesktopWindow P) (window_parent kw)) in
      (Py.len windows <= i ->
       outcome (find_windows P kw) = Raise IndexError) /\
      (0 <= i < Py.len windows ->
       exists win, nth_error windows (Z.to_nat i) = Some win /\
                   outcome (find_windows P kw)
                   = Return [NativeElementInfo P win])) /\
  (forall msg, @IndexError (ElementInfo P) <> WindowNotFoundError msg).
Proof.
  split; [| split; [| discriminate]].
  - intros kw Hh Ht Hc elements.
    assert (E : outcome (find_elements P kw)
                = match Py.index elements i with
                  | Some elem => Return [elem]
                  | None => Raise IndexError
                  end).
    { unfold find_elements, narrow_elements, acquire_elements.
      rewrite Hh, Ht, Hc. simpl Py.default. cbv iota. fold elements.
      destruct (Py.index elements i); reflexivity. }
    split; intros Hi.
    + now rewrite E, index_beyond.
    + destruct (nth_error_in_range elements i Hi) as [x Hx].
      exists x. split; [assumption |].
      now rewrite E, index_in_range, Hx.
  - intros kw Hh Ht Hc windows.
    assert (E : outcome (find_windows P kw)
                = match Py.index windows i with
                  | Some win => Return [NativeElementInfo P win]
                  | None => Raise IndexError
                  end).
    { unfold find_windows, narrow_windows, acquire_windows.
      rewrite Hh, Ht, Hc. simpl Py.default. cbv iota.
      subst windows.
      destruct (window_parent kw); simpl;
        match goal with |- context [Py.index ?l i] => destruct (Py.index l i) end;
        reflexivity. }
    split; intros Hi.
    + now rewrite E, index_beyond.
    + destruct (nth_error_in_range windows i Hi) as [x Hx].
      exists x. split; [assumption |].
      now rewrite E, index_in_range, Hx.
Qed.

Lemma ctrl_index_short_circuit_witness :
  outcome (find_elements Desk.uia
             (Desk.set_ctrl_index 9 (Desk.set_top_level_only false Desk.call)))
  = Raise IndexError
  /\ outcome (find_windows Desk.native
                (Desk.set_ctrl_index 1 (Desk.set_top_level_only false Desk.call)))
     = Return [Some 200].
Proof.
  split.
  - apply (proj1 (proj1 (ctrl_index_short_circuit Desk.uia 9)
                        (Desk.set_ctrl_index 9 (Desk.set_top_level_only false Desk.call))
                        eq_refl eq_refl eq_refl)).
    vm_compute. discriminate.
  - destruct (proj2 (proj1 (proj2 (ctrl_index_short_circuit Desk.native 1))
                           (Desk.set_ctrl_index 1 (Desk.set_top_level_only false Desk.call))
                           eq_refl eq_refl eq_refl))
      as [win [Hn Ho]].
    + vm_compute. split; [discriminate | reflexivity].
    + vm_compute in Hn. injection Hn as <-. exact Ho.
Defined.

(** ** Title and class name *)

(** C6.  With [title] given, [title_re] is never looked at: the title step
    is the exact comparison with [title], and a call with both [title] and
    [title_re] does what the same call without [title_re] does (same
    events, same outcome), in both pipelines. *)
Theorem title_takes_precedence (P : Platform) (t r : string) :
  (forall kw,
      title kw = Some t -> title_re kw = Some r ->
      (forall elements,
          title_elements P kw elements
          = ([], Return (filter (fun elem => text_eq (ei_windowText P elem) t)
                                elements))) /\
      find_elements P kw = find_elements P (with_title_re None kw)) /\
  (forall kw,
      title kw = Some t -> title_re kw = Some r ->
      (forall windows,
          title_windows P kw windows
          = ([], Return (filter (fun win => text_eq (handleprops_text P win) t)
                                windows))) /\
      find_windows P kw = find_windows P (with_title_re None kw)).
Proof.
  split; intros kw Ht Hr; (split; [intros l |]).
  - unfold title_elements. now rewrite Ht.
  - destruct kw; simpl in *; subst.
    unfold find_elements, narrow_elements, filter_elements, title_elements.
    reflexivity.
  - unfold title_windows. now rewrite Ht.
  - destruct kw; simpl in *; subst.
    unfold find_windows, narrow_windows, filter_windows, title_windows.
    reflexivity.
Qed.

Lemma title_takes_precedence_witness :
  find_elements Desk.uia
    (with_title_re (Some "Untitled") (Desk.set_title "Calculator" Desk.call))
  = find_elements Desk.uia
      (with_title_re None
         (with_title_re (Some "Untitled") (Desk.set_title "Calculator" Desk.call)))
  /\ find_windows Desk.native
       (with_title_re (Some "Untitled") (Desk.set_title "Calculator" Desk.call))
     = find_windows Desk.native
         (with_title_re None
            (with_title_re (Some "Untitled") (Desk.set_title "Calculator" Desk.call))).
Proof.
  split.
  - apply (proj1 (title_takes_precedence Desk.uia "Calculator" "Untitled")
                 (with_title_re (Some "Untitled") (Desk.set_title "Calculator" Desk.call))
                 eq_refl eq_refl).
  - apply (proj2 (title_takes_precedence Desk.native "Calculator" "Untitled")
                 (with_title_re (Some "Untitled") (Desk.set_title "Calculator" Desk.call))
                 eq_refl eq_refl).
Defined.

(** C7, as the code has it.  The class-name step applies [class_name]'s
    exact match and then, whenever [class_name_re] is given,
    [class_name_re]'s match as well: with both given, an element survives
    the step only if its class name equals [class_name] and matches
    [class_name_re] at its start; a [class_name_re] that does not compile
    raises even though [class_name] is given. *)
Theorem class_name_and_class_name_re (P : Platform) (c pattern : string) :
  (forall kw,
      class_name kw = Some c -> class_name_re kw = Some pattern ->
      forall elements,
        (forall regex,
            re_compile P pattern = Some regex ->
            class_name_re_elements P kw (class_name_elements P kw elements)
            = ([], Return (filter (fun elem =>
                                     String.eqb (ei_className P elem) c
                                     && re_match P regex (ei_className P elem))
                                  elements))) /\
        (re_compile P pattern = None ->
         class_name_re_elements P kw (class_name_elements P kw elements)
         = ([], Raise re_error))) /\
  (forall kw,
      class_name kw = Some c -> class_name_re kw = Some pattern ->
      forall windows,
        (forall regex,
            re_compile P pattern = Some regex ->
            class_name_re_windows P kw (class_name_windows P kw windows)
            = ([], Return (filter (fun win =>
                                     String.eqb c (handleprops_classname P win)
                                     && re_match P regex (handleprops_classname P win))
                                  windows))) /\
        (re_compile P pattern = None ->
         class_name_re_windows P kw (class_name_windows P kw windows)
         = ([], Raise re_error))).
Proof.
  split; intros kw Hc Hr l; split.
  - intros regex Hx.
    unfold class_name_re_elements, class_name_elements, compile.
    rewrite Hc, Hr, Hx. simpl. now rewrite filter_filter.
  - intros Hx.
    unfold class_name_re_elements, class_name_elements, compile.
    now rewrite Hc, Hr, Hx.
  - intros regex Hx.
    unfold class_name_re_windows, class_name_windows, compile.
    rewrite Hc, Hr, Hx. simpl. now rewrite filter_filter.
  - intros Hx.
    unfold class_name_re_windows, class_name_windows, compile.
    now rewrite Hc, Hr, Hx.
Qed.

Lemma class_name_and_class_name_re_witness :
  class_name_re_elements Desk.uia
    (with_class_name_re (Some "Note") (Desk.set_class_name "Notepad" Desk.call))
    (class_name_elements Desk.uia
       (with_class_name_re (Some "Note") (Desk.set_class_name "Notepad" Desk.call))
       [Some 100; Some 200; Some 400])
  = ([], Return [Some 100; Some 400])
  /\ class_name_re_windows Desk.native
       (with_class_name_re (Some "(") (Desk.set_class_name "Notepad" Desk.call))
       (class_name_windows Desk.native
          (with_class_name_re (Some "(") (Desk.set_class_name "Notepad" Desk.call))
          [100; 200; 400])
     = ([], Raise re_error).
Proof.
  split.
  - apply (proj1 (proj1 (class_name_and_class_name_re Desk.uia "Notepad" "Note")
                        (with_class_name_re (Some "Note")
                           (Desk.set_class_name "Notepad" Desk.call))
                        eq_refl eq_refl [Some 100; Some 200; Some 400])
                 "Note" eq_refl).
  - apply (proj2 (proj2 (class_name_and_class_name_re Desk.native "Notepad" "(")
                        (with_class_name_re (Some "(")
                           (Desk.set_class_name "Notepad" Desk.call))
                        eq_refl eq_refl [100; 200; 400])
                 eq_refl).
Defined.

(** C7 as stated fails: with [class_name = "Notepad"] alone the visible
    Notepad window is found; adding [class_name_re = "Calc"] leaves
    nothing, so [class_name_re] does take part although [class_name] is
    given.  The same holds in [find_windows]. *)
Lemma class_name_re_ignored_counterexample :
  outcome (find_elements Desk.uia (Desk.set_class_name "Notepad" Desk.call))
  = Return [Some 100]
  /\ outcome (find_elements Desk.uia
                (with_class_name_re (Some "Calc")
                   (Desk.set_class_name "Notepad" Desk.call)))
     = Return []
  /\ outcome (find_windows Desk.native (Desk.set_class_name "Notepad" Desk.call))
     = Return [Some 100]
  /\ outcome (find_windows Desk.native
                (with_class_name_re (Some "Calc")
                   (Desk.set_class_name "Notepad" Desk.call)))
     = Return []
  /\ find_elements Desk.uia
       (with_class_name_re (Some "Calc") (Desk.set_class_name "Notepad" Desk.call))
     <> find_elements Desk.uia
          (with_class_name_re None
             (with_class_name_re (Some "Calc")
                (Desk.set_class_name "Notepad" Desk.call))).
Proof.
  split; [reflexivity |]. split; [reflexivity |].
  split; [reflexivity |]. split; [reflexivity |].
  vm_compute. discriminate.
Qed.

(** ** The found_index step *)

Section FoundIndex.

Context (P : Platform) {A : Type}.

Lemma found_index_step_beyond (i : Z) (l : list A) :
  Py.len l <= i ->
  found_index_step P (Some i) l
  = ([], Raise (WindowNotFoundError
                  (Some (found_index_message i (Py.len l))))).
Proof.
  intros H. unfold found_index_step.
  destruct (i <? Py.len l) eqn:E; [lia | reflexivity].
Qed.

Lemma found_index_step_at (i : Z) (l : list A) x :
  0 <= i < Py.len l -> nth_error l (Z.to_nat i) = Some x ->
  found_index_step P (Some i) l = ([], Return [x]).
Proof.
  intros H Hx. unfold found_index_step.
  destruct (i <? Py.len l) eqn:E; [| lia].
  now rewrite (slice_at l i x H Hx).
Qed.

Lemma found_index_step_from_end (i : Z) (l : list A) x :
  2 <= - i <= Py.len l -> nth_error l (Z.to_nat (Py.len l + i)) = Some x ->
  found_index_step P (Some i) l = ([], Return [x]).
Proof.
  intros H Hx. unfold found_index_step.
  destruct (i <? Py.len l) eqn:E; [| lia].
  now rewrite (slice_from_end l i x H Hx).
Qed.

Lemma found_index_step_incl (o : option Z) (l res : list A) :
  outcome (found_index_step P o l) = Return res -> incl res l.
Proof.
  unfold found_index_step. destruct o as [i |].
  - destruct (i <? Py.len l); simpl; intros H; inversion H.
    apply slice_incl.
  - simpl. intros H; inversion H. apply incl_refl.
Qed.

End FoundIndex.

Lemma find_elements_reaches (P : Platform) kw elements :
  outcome (narrow_elements P kw) = Return (Population elements) ->
  outcome (find_elements P kw)
  = outcome (found_index_step P (found_index kw) elements).
Proof.
  intros H. unfold find_elements. now rewrite outcome_bind, H.
Qed.

Lemma find_windows_reaches (P : Platform) kw windows :
  outcome (narrow_windows P kw) = Return (Population windows) ->
  outcome (find_windows P kw)
  = match outcome (found_index_step P (found_index kw) windows) with
    | Return ws => Return (map (NativeElementInfo P) ws)
    | Raise e => Raise e
    end.
Proof.
  intros H. unfold find_windows. rewrite outcome_bind, H, outcome_bind.
  destruct (outcome (found_index_step P (found_index kw) windows)); reflexivity.
Qed.

(** C3, as the code has it.  When the list that reaches the [found_index]
    step (no [handle], no [ctrl_index] short cut, a population that is not
    empty at the early stop) has [n] elements and [found_index] is not
    negative: [found_index >= n] raises WindowNotFoundError with the
    message "found_index is specified as <found_index>, but <n> window/s
    found"; [found_index < n] returns the one-element list with the
    element at that position.  A population that is empty at the early
    stop is returned as it is, whatever [found_index] says. *)
Theorem found_index_selects (P : Platform) (i : Z) :
  (forall kw elements,
      found_index kw = Some i -> 0 <= i ->
      outcome (narrow_elements P kw) = Return (Population elements) ->
      (Py.len elements <= i ->
       outcome (find_elements P kw)
       = Raise (WindowNotFoundError
                  (Some ("found_index is specified as " ++ Py.fmt_d i
                           ++ ", but " ++ Py.fmt_d (Py.len elements)
                           ++ " window/s found")%string))) /\
      (i < Py.len elements ->
       exists elem, nth_error elements (Z.to_nat i) = Some elem /\
                    outcome (find_elements P kw) = Return [elem])) /\
  (forall kw windows,
      found_index kw = Some i -> 0 <= i ->
      outcome (narrow_windows P kw) = Return (Population windows) ->
      (Py.len windows <= i ->
       outcome (find_windows P kw)
       = Raise (WindowNotFoundError
                  (Some ("found_index is specified as " ++ Py.fmt_d i
                           ++ ", but " ++ Py.fmt_d (Py.len windows)
                           ++ " window/s found")%string))) /\
      (i < Py.len windows ->
       exists win, nth_error windows (Z.to_nat i) = Some win /\
                   outcome (find_windows P kw)
                   = Return [NativeElementInfo P win])) /\
  (forall kw population,
      found_index kw = Some i -> handle kw = None ->
      outcome (acquire_elements P kw) = Return (Population population) ->
      outcome (active_only_elements P kw (control_id_elements P kw population))
      = Return [] ->
      outcome (find_elements P kw) = Return []) /\
  (forall kw population,
      found_index kw = Some i -> handle kw = None ->
      outcome (acquire_windows P kw) = Return (Population population) ->
      outcome (active_only_windows P kw (control_id_windows P kw population))
      = Return [] ->
      outcome (find_windows P kw) = Return []).
Proof.
  split; [| split; [| split]].
  - intros kw elements Hf Hi Hn. split; intros Hl.
    + rewrite (@find_elements_reaches P kw elements Hn), Hf.
      now rewrite found_index_step_beyond.
    + destruct (@nth_error_in_range _ elements i) as [x Hx]; [lia |].
      exists x. split; [assumption |].
      rewrite (@find_elements_reaches P kw elements Hn), Hf.
      rewrite (@found_index_step_at P _ i elements x); [reflexivity | lia | assumption].
  - intros kw windows Hf Hi Hn. split; intros Hl.
    + rewrite (@find_windows_reaches P kw windows Hn), Hf.
      now rewrite found_index_step_beyond.
    + destruct (@nth_error_in_range _ windows i) as [x Hx]; [lia |].
      exists x. split; [assumption |].
      rewrite (@find_windows_reaches P kw windows Hn), Hf.
      rewrite (@found_index_step_at P _ i windows x); [reflexivity | lia | assumption].
  - intros kw population _ Hh Ha He.
    unfold find_elements, narrow_elements.
    rewrite Hh, !outcome_bind, Ha, outcome_bind, He. reflexivity.
  - intros kw population _ Hh Ha He.
    unfold find_windows, narrow_windows.
    rewrite Hh, !outcome_bind, Ha, outcome_bind, He. reflexivity.
Qed.

Lemma found_index_selects_witness :
  outcome (find_elements Desk.uia (Desk.set_found_index 5 Desk.call))
  = Raise (WindowNotFoundError
             (Some "found_index is specified as 5, but 3 window/s found"))
  /\ outcome (find_windows Desk.native (Desk.set_found_index 1 Desk.call))
     = Return [Some 200]
  /\ outcome (find_elements Desk.uia
                (Desk.set_found_index 0 (Desk.set_control_id 999 Desk.call)))
     = Return [].
Proof.
  split; [| split].
  - apply (proj1 (proj1 (found_index_selects Desk.uia 5)
                        (Desk.set_found_index 5 Desk.call)
                        [Some 100; Some 200; Some 300]
                        eq_refl ltac:(lia) eq_refl)).
    vm_compute. discriminate.
  - destruct (proj2 (proj1 (proj2 (found_index_selects Desk.native 1))
                           (Desk.set_found_index 1 Desk.call)
                           [100; 200; 300]
                           eq_refl ltac:(lia) eq_refl))
      as [win [Hn Ho]].
    + reflexivity.
    + vm_compute in Hn. injection Hn as <-. exact Ho.
  - apply (proj1 (proj2 (proj2 (found_index_selects Desk.uia 0)))
                 (Desk.set_found_index 0 (Desk.set_control_id 999 Desk.call))
                 [Some 100; Some 200; Some 300; Some 400]
                 eq_refl eq_refl eq_refl eq_refl).
Defined.

(** C3 as stated fails twice.  Nothing has control id 999, so no element
    remains and [found_index = 0] is not less than their number, yet the
    early stop returns the empty list and nothing is raised.  And
    [found_index = -1] is less than the number of elements (three), yet
    the result is not one element: it is empty. *)
Lemma found_index_counterexample :
  (outcome (find_elements Desk.uia
              (with_found_index None
                 (Desk.set_found_index 0 (Desk.set_control_id 999 Desk.call))))
   = Return []
   /\ outcome (find_elements Desk.uia
                 (Desk.set_found_index 0 (Desk.set_control_id 999 Desk.call)))
      = Return []
   /\ outcome (find_windows Desk.native
                 (Desk.set_found_index 0 (Desk.set_control_id 999 Desk.call)))
      = Return [])
  /\ (outcome (find_elements Desk.uia
                 (with_found_index None (Desk.set_found_index (-1) Desk.call)))
      = Return [Some 100; Some 200; Some 300]
      /\ outcome (find_elements Desk.uia (Desk.set_found_index (-1) Desk.call))
         = Return []
      /\ outcome (find_windows Desk.native (Desk.set_found_index (-1) Desk.call))
         = Return []).
Proof. repeat split. Qed.

(** C10, as the code has it.  For a negative [found_index] other than -1
    whose absolute value does not exceed the length of the list that
    reaches the [found_index] step, nothing is raised: the guard
    [found_index < len(elements)] lets it through and the result is the
    one-element list with the element [-found_index] places from the end
    ([found_index = -2] gives the last but one). *)
Theorem found_index_from_end (P : Platform) (i : Z) :
  (forall kw elements,
      found_index kw = Some i -> 2 <= - i <= Py.len elements ->
      outcome (narrow_elements P kw) = Return (Population elements) ->
      exists elem,
        nth_error elements (Z.to_nat (Py.len elements + i)) = Some elem /\
        outcome (find_elements P kw) = Return [elem]) /\
  (forall kw windows,
      found_index kw = Some i -> 2 <= - i <= Py.len windows ->
      outcome (narrow_windows P kw) = Return (Population windows) ->
      exists win,
        nth_error windows (Z.to_nat (Py.len windows + i)) = Some win /\
        outcome (find_windows P kw) = Return [NativeElementInfo P win]).
Proof.
  split.
  - intros kw elements Hf Hi Hn.
    destruct (@nth_error_in_range _ elements (Py.len elements + i))
      as [x Hx]; [lia |].
    exists x. split; [assumption |].
    rewrite (@find_elements_reaches P kw elements Hn), Hf.
    rewrite (@found_index_step_from_end P _ i elements x);
      [reflexivity | lia | assumption].
  - intros kw windows Hf Hi Hn.
    destruct (@nth_error_in_range _ windows (Py.len windows + i))
      as [x Hx]; [lia |].
    exists x. split; [assumption |].
    rewrite (@find_windows_reaches P kw windows Hn), Hf.
    rewrite (@found_index_step_from_end P _ i windows x);
      [reflexivity | lia | assumption].
Qed.

Lemma found_index_from_end_witness :
  outcome (find_elements Desk.uia (Desk.set_found_index (-2) Desk.call))
  = Return [Some 200]
  /\ outcome (find_windows Desk.native (Desk.set_found_index (-3) Desk.call))
     = Return [Some 100].
Proof.
  split.
  - destruct (proj1 (found_index_from_end Desk.uia (-2))
                    (Desk.set_found_index (-2) Desk.call)
                    [Some 100; Some 200; Some 300]
                    eq_refl)
      as [elem [Hn Ho]].
    + vm_compute. split; discriminate.
    + reflexivity.
    + vm_compute in Hn. injection Hn as <-. exact Ho.
  - destruct (proj2 (found_index_from_end Desk.native (-3))
                    (Desk.set_found_index (-3) Desk.call)
                    [100; 200; 300]
                    eq_refl)
      as [win [Hn Ho]].
    + vm_compute. split; discriminate.
    + reflexivity.
    + vm_compute in Hn. injection Hn as <-. exact Ho.
Defined.

(** C10 as stated fails at [found_index = -1]: three elements reach the
    step, the guard lets -1 through, and the slice [elements[-1:0]] is
    empty, not the last element. *)
Lemma found_index_last_counterexample :
  outcome (narrow_elements Desk.uia (Desk.set_found_index (-1) Desk.call))
  = Return (Population [Some 100; Some 200; Some 300])
  /\ outcome (find_elements Desk.uia (Desk.set_found_index (-1) Desk.call))
     = Return []
  /\ outcome (find_elements Desk.uia (Desk.set_found_index (-1) Desk.call))
     <> Return [Some 300]
  /\ outcome (narrow_windows Desk.native (Desk.set_found_index (-1) Desk.call))
     = Return (Population [100; 200; 300])
  /\ outcome (find_windows Desk.native (Desk.set_found_index (-1) Desk.call))
     = Return []
  /\ outcome (find_windows Desk.native (Desk.set_found_index (-1) Desk.call))
     <> Return [Some 300].
Proof. repeat split; discriminate. Qed.

(** With [found_index = -1] the step returns the empty list, whatever
    reaches it. *)
Lemma found_index_minus_one (P : Platform) {A} (l : list A) :
  found_index_step P (Some (-1)) l = ([], Return []).
Proof.
  pose proof (len_nonneg l) as H. unfold found_index_step.
  destruct (-1 <? Py.len l) eqn:E; [| lia].
  now rewrite slice_last_empty.
Qed.

(** ** Results and the population *)

Section Subset.

Context (P : Platform).
Variable kw : Kwargs (ParentArg (ElementInfo P)) (ElementInfo P).

Lemma acquire_elements_incl a :
  outcome (acquire_elements P kw) = Return a ->
  match a with
  | ReturnNow result => incl result (initial_population P kw)
  | Population elements => incl elements (initial_population P kw)
  end.
Proof.
  unfold acquire_elements, initial_population.
  destruct (Py.default true (top_level_only kw)).
  - simpl. intros H. inversion H; subst; clear H.
    destruct (element_parent P kw); [apply incl_filter | apply incl_refl].
  - set (elements := ei_descendants P _).
    destruct (ctrl_index kw) as [i |].
    + destruct (Py.index elements i) as [elem |] eqn:E; simpl; intros H;
        inversion H; subst; clear H.
      intros x [<- | []]. eapply index_In; eassumption.
    + simpl. intros H; inversion H. apply incl_refl.
Qed.

Lemma control_id_elements_incl l : incl (control_id_elements P kw l) l.
Proof.
  unfold control_id_elements.
  destruct (control_id kw); [| apply incl_refl].
  destruct (Py.is_empty l); [apply incl_refl | apply incl_filter].
Qed.

Lemma active_only_elements_incl l res :
  outcome (active_only_elements P kw l) = Return res -> incl res l.
Proof.
  unfold active_only_elements.
  destruct (Py.default false (active_only kw)).
  - rewrite outcome_bind.
    destruct (outcome (active_window P)) as [active |]; [| discriminate].
    simpl.
    destruct (find _ l) as [elem |] eqn:E; intros H; inversion H.
    + intros x [<- | []]. now apply find_some in E.
    + apply incl_nil_l.
  - simpl. intros H; inversion H. apply incl_refl.
Qed.

Lemma class_name_re_elements_incl l res :
  outcome (class_name_re_elements P kw l) = Return res -> incl res l.
Proof.
  unfold class_name_re_elements, compile.
  destruct (class_name_re kw) as [pattern |].
  - destruct (re_compile P pattern); simpl; intros H; inversion H.
    apply incl_filter.
  - simpl. intros H; inversion H. apply incl_refl.
Qed.

Lemma title_elements_incl l res :
  outcome (title_elements P kw l) = Return res -> incl res l.
Proof.
  unfold title_elements, compile.
  destruct (title kw) as [s |].
  - simpl. intros H; inversion H. apply incl_filter.
  - destruct (title_re kw) as [pattern |].
    + destruct (re_compile P pattern) as [regex |];
        [| simpl; discriminate].
      rewrite outcome_bind. simpl. intros H x Hx.
      now apply (filterM_Return _ _ _ H).
    + simpl. intros H; inversion H. apply incl_refl.
Qed.

(** The steps of lines 183-209 keep elements of their list. *)
Lemma before_best_match_incl l res :
  outcome (title_elements P kw
             (process_elements P kw
                (class_name_elements P kw l))) = Return res ->
  incl (enabled_elements P kw (visible_elements P kw res)) l.
Proof.
  intros H.
  apply incl_tran with res.
  - unfold enabled_elements, visible_elements.
    destruct (Py.default false (enabled_only kw));
      destruct (Py.default true (visible_only kw));
      repeat (apply incl_refl || (eapply incl_tran; [apply incl_filter |])).
  - apply title_elements_incl in H.
    eapply incl_tran; [exact H |].
    unfold process_elements, class_name_elements.
    destruct (process kw); destruct (class_name kw);
      repeat (apply incl_refl || (eapply incl_tran; [apply incl_filter |])).
Qed.

Lemma predicate_elements_incl l : incl (predicate_elements P kw l) l.
Proof.
  unfold predicate_elements.
  destruct (predicate_func kw); [apply incl_filter | apply incl_refl].
Qed.

End Subset.

Section SubsetPipeline.

Context (P : Platform).
Variable kw : Kwargs (ParentArg (ElementInfo P)) (ElementInfo P).
Hypothesis matcher_ok : matcher_stays_in_population P kw.

Lemma best_match_elements_incl l res :
  incl l (initial_population P kw) ->
  outcome (best_match_elements P kw l) = Return res ->
  incl res (initial_population P kw).
Proof.
  intros Hl. unfold best_match_elements.
  destruct (best_match kw) as [target |] eqn:B.
  - rewrite !outcome_bind. simpl.
    destruct (find_best_control_matches P target (wrap_elements P l))
      as [matches |] eqn:F; simpl; [| discriminate].
    intros H; inversion H; subst; clear H.
    intros x Hx. apply in_map_iff in Hx. destruct Hx as [w [<- Hw]].
    exact (matcher_ok target l matches B Hl F w Hw).
  - simpl. intros H; inversion H; subst. exact Hl.
Qed.

Lemma filter_elements_incl l res :
  incl l (initial_population P kw) ->
  outcome (filter_elements P kw l) = Return res ->
  incl res (initial_population P kw).
Proof.
  intros Hl. unfold filter_elements.
  rewrite outcome_bind.
  destruct (outcome (class_name_re_elements P kw _)) as [r1 |] eqn:E1;
    [| discriminate].
  rewrite outcome_bind.
  destruct (outcome (title_elements P kw _)) as [r2 |] eqn:E2;
    [| discriminate].
  rewrite outcome_bind.
  destruct (outcome (best_match_elements P kw _)) as [r3 |] eqn:E3;
    [| discriminate].
  simpl. intros H; inversion H; subst; clear H.
  eapply incl_tran; [apply predicate_elements_incl |].
  apply best_match_elements_incl in E3; [exact E3 |].
  apply title_elements_incl in E2.
  apply class_name_re_elements_incl in E1.
  unfold enabled_elements, visible_elements.
  assert (H2 : incl r2 l).
  { eapply incl_tran; [exact E2 |].
    unfold process_elements.
    destruct (process kw);
      [eapply incl_tran; [apply incl_filter |] |];
      (eapply incl_tran; [exact E1 |]);
      unfold class_name_elements; destruct (class_name kw);
      apply incl_filter || apply incl_refl. }
  destruct (Py.default false (enabled_only kw));
    destruct (Py.default true (visible_only kw));
    repeat (eapply incl_tran; [apply incl_filter |]);
    (eapply incl_tran; [exact H2 | exact Hl]).
Qed.

Lemma narrow_elements_incl a :
  handle kw = None ->
  outcome (narrow_elements P kw) = Return a ->
  match a with
  | ReturnNow result => incl result (initial_population P kw)
  | Population elements => incl elements (initial_population P kw)
  end.
Proof.
  intros Hh. unfold narrow_elements. rewrite Hh, outcome_bind.
  destruct (outcome (acquire_elements P kw)) as [[r | pop] |] eqn:Ea;
    [| | discriminate].
  - simpl. intros H; inversion H; subst.
    exact (@acquire_elements_incl P kw _ Ea).
  - pose proof (@acquire_elements_incl P kw _ Ea) as Hp. simpl in Hp.
    rewrite outcome_bind.
    destruct (outcome (active_only_elements P kw _)) as [act |] eqn:Eact;
      [| discriminate].
    assert (Hact : incl act (initial_population P kw)).
    { eapply incl_tran; [exact (@active_only_elements_incl P kw _ _ Eact) |].
      eapply incl_tran; [apply control_id_elements_incl | exact Hp]. }
    destruct (Py.is_empty act).
    + simpl. intros H; inversion H; subst. exact Hact.
    + rewrite outcome_bind.
      destruct (outcome (filter_elements P kw act)) as [els |] eqn:Ef;
        [| discriminate].
      simpl. intros H; inversion H; subst.
      exact (filter_elements_incl act els Hact Ef).
Qed.

End SubsetPipeline.

(** C5, as the code has it.  When [handle] is not given, every element of
    the result of [find_elements] is a member of the initial population
    of the acquisition mode (all top-level elements, or all descendants of
    the parent), provided that, when [best_match] is given, the elements
    made from the matcher's output by [UIAElementInfo(elem.handle)] are
    members of that population. *)
Theorem result_in_population (P : Platform) kw result :
  handle kw = None ->
  matcher_stays_in_population P kw ->
  outcome (find_elements P kw) = Return result ->
  forall elem, In elem result -> In elem (initial_population P kw).
Proof.
  intros Hh Hm H. unfold find_elements in H. rewrite outcome_bind in H.
  destruct (outcome (narrow_elements P kw)) as [a |] eqn:En; [| discriminate].
  pose proof (@narrow_elements_incl P kw Hm a Hh En) as Ha.
  destruct a as [r | els].
  - simpl in H. inversion H; subst. exact Ha.
  - intros elem He. apply Ha.
    exact (@found_index_step_incl P _ (found_index kw) els result H elem He).
Qed.

(** On the small desktop an element is its handle, so the matcher, which
    returns some of its candidates, stays in the population. *)
Lemma desk_matcher_stays_in_population kw :
  matcher_stays_in_population Desk.uia kw.
Proof.
  intros target candidates matches _ Hc F w Hw.
  simpl in F. injection F as <-.
  apply filter_In in Hw. destruct Hw as [Hw _].
  unfold wrap_elements in Hw. apply in_flat_map in Hw.
  destruct Hw as [e [He Hw]].
  apply Hc.
  destruct (truthy_handle (ei_handle Desk.uia e)); [| destruct Hw].
  destruct e as [h |]; simpl in Hw; [| destruct Hw].
  destruct (Desk.lookup h); [| destruct Hw].
  destruct Hw as [<- | []]. exact He.
Qed.

Lemma result_in_population_witness :
  outcome (find_elements Desk.uia (Desk.set_best_match "Calc" Desk.call))
  = Return [Some 200]
  /\ In (Some 200)
        (initial_population Desk.uia (Desk.set_best_match "Calc" Desk.call)).
Proof.
  split; [reflexivity |].
  apply (result_in_population Desk.uia
           (Desk.set_best_match "Calc" Desk.call) [Some 200]
           eq_refl
           (desk_matcher_stays_in_population
              (Desk.set_best_match "Calc" Desk.call))
           eq_refl (Some 200)).
  left. reflexivity.
Defined.

(** C5 as stated fails when [handle] is given: window 101 is a child of
    window 100, not a top-level window, and no acquisition mode is asked
    for other than the default top-level one, yet the result is the
    element of handle 101. *)
Lemma handle_outside_population_counterexample :
  outcome (find_elements Desk.uia (Desk.set_handle 101 Desk.call))
  = Return [Some 101]
  /\ initial_population Desk.uia (Desk.set_handle 101 Desk.call)
     = [Some 100; Some 200; Some 300; Some 400]
  /\ ~ In (Some 101)
         (initial_population Desk.uia (Desk.set_handle 101 Desk.call)).
Proof.
  split; [reflexivity | split; [reflexivity |]].
  simpl. intros H.
  repeat (destruct H as [H | H]; [discriminate H |]). exact H.
Qed.

(** ** The active window *)

Lemma calls_filterM {EI A} ev (p : A -> M EI bool) (l : list A) :
  (forall x, events (p x) = []) -> calls ev (filterM p l) = 0%nat.
Proof.
  intros Hp. induction l as [| a l IH]; [reflexivity |].
  simpl filterM. rewrite calls_bind.
  unfold calls at 1. rewrite Hp. simpl.
  destruct (outcome (p a)); [| reflexivity].
  rewrite calls_bind, IH.
  destruct (outcome (filterM p l)); reflexivity.
Qed.

Section Queries.

Context (P : Platform).

Let query := CallGetGUIThreadInfo.

Lemma calls_active_window : calls query (active_window P) = 1%nat.
Proof.
  unfold active_window. rewrite calls_bind. simpl.
  destruct (GetGUIThreadInfo_ret P); reflexivity.
Qed.

Lemma calls_found_index_step {A} o (l : list A) :
  calls query (found_index_step P o l) = 0%nat.
Proof.
  unfold found_index_step. destruct o as [i |]; [| reflexivity].
  destruct (i <? Py.len l); reflexivity.
Qed.

Lemma calls_compile pattern : calls query (compile P pattern) = 0%nat.
Proof. unfold compile. destruct (re_compile P pattern); reflexivity. Qed.

Lemma calls_acquire_elements kw : calls query (acquire_elements P kw) = 0%nat.
Proof.
  unfold acquire_elements.
  destruct (Py.default true (top_level_only kw)); [reflexivity |].
  destruct (ctrl_index kw) as [i |]; [| reflexivity].
  destruct (Py.index _ i); reflexivity.
Qed.

Lemma calls_acquire_windows kw : calls query (acquire_windows P kw) = 0%nat.
Proof.
  unfold acquire_windows.
  destruct (Py.default true (top_level_only kw)); [reflexivity |].
  destruct (window_parent kw); simpl;
    destruct (ctrl_index kw) as [i |]; try reflexivity;
    match goal with |- context [Py.index ?l i] => destruct (Py.index l i) end;
    reflexivity.
Qed.

Lemma calls_filter_elements kw l : calls query (filter_elements P kw l) = 0%nat.
Proof.
  unfold filter_elements. rewrite calls_bind.
  assert (E1 : forall l', calls query (class_name_re_elements P kw l') = 0%nat).
  { intros l'. unfold class_name_re_elements.
    destruct (class_name_re kw) as [pattern |]; [| reflexivity].
    rewrite calls_bind, calls_compile.
    destruct (outcome (compile P pattern)); reflexivity. }
  assert (E2 : forall l', calls query (title_elements P kw l') = 0%nat).
  { intros l'. unfold title_elements.
    destruct (title kw); [reflexivity |].
    destruct (title_re kw) as [pattern |]; [| reflexivity].
    rewrite calls_bind, calls_compile.
    destruct (outcome (compile P pattern)) as [regex |]; [| reflexivity].
    apply calls_filterM. intros x. unfold _title_match.
    destruct (ei_windowText P x); reflexivity. }
  assert (E3 : forall l', calls query (best_match_elements P kw l') = 0%nat).
  { intros l'. unfold best_match_elements.
    destruct (best_match kw) as [target |]; [| reflexivity].
    rewrite calls_bind. simpl outcome. cbv iota. rewrite calls_bind.
    simpl (outcome (lift _ _)).
    destruct (find_best_control_matches P target _); reflexivity. }
  rewrite E1.
  destruct (outcome (class_name_re_elements P kw _)); [| reflexivity].
  rewrite calls_bind, E2.
  destruct (outcome (title_elements P kw _)); [| reflexivity].
  rewrite calls_bind, E3.
  destruct (outcome (best_match_elements P kw _)); reflexivity.
Qed.

Lemma calls_filter_windows kw l : calls query (filter_windows P kw l) = 0%nat.
Proof.
  unfold filter_windows. rewrite calls_bind.
  assert (E1 : forall l', calls query (class_name_re_windows P kw l') = 0%nat).
  { intros l'. unfold class_name_re_windows.
    destruct (class_name_re kw) as [pattern |]; [| reflexivity].
    rewrite calls_bind, calls_compile.
    destruct (outcome (compile P pattern)); reflexivity. }
  assert (E2 : forall l', calls query (title_windows P kw l') = 0%nat).
  { intros l'. unfold title_windows.
    destruct (title kw); [reflexivity |].
    destruct (title_re kw) as [pattern |]; [| reflexivity].
    rewrite calls_bind, calls_compile.
    destruct (outcome (compile P pattern)) as [regex |]; [| reflexivity].
    apply calls_filterM. intros x. unfold _title_match_window.
    destruct (handleprops_text P x); reflexivity. }
  assert (E3 : forall l', calls query (best_match_windows P kw l') = 0%nat).
  { intros l'. unfold best_match_windows.
    destruct (best_match kw) as [target |]; [| reflexivity].
    rewrite calls_bind. simpl (outcome (lift _ _)).
    destruct (find_best_control_matches P target _); reflexivity. }
  rewrite E1.
  destruct (outcome (class_name_re_windows P kw _)); [| reflexivity].
  rewrite calls_bind, E2.
  destruct (outcome (title_windows P kw _)); [| reflexivity].
  rewrite calls_bind, E3.
  destruct (outcome (best_match_windows P kw _)); reflexivity.
Qed.

End Queries.

Lemma calls_find_elements (P : Platform) kw population :
  handle kw = None ->
  outcome (acquire_elements P kw) = Return (Population population) ->
  calls CallGetGUIThreadInfo (find_elements P kw)
  = calls CallGetGUIThreadInfo
      (active_only_elements P kw (control_id_elements P kw population)).
Proof.
  intros Hh Ha. unfold find_elements. rewrite calls_bind.
  unfold narrow_elements. rewrite Hh.
  rewrite calls_bind, outcome_bind, calls_acquire_elements, Ha.
  rewrite calls_bind, outcome_bind.
  generalize (calls CallGetGUIThreadInfo
                (active_only_elements P kw (control_id_elements P kw population))).
  intros n.
  destruct (outcome (active_only_elements P kw _)) as [act |];
    [| simpl; lia].
  destruct (Py.is_empty act); [unfold calls; simpl; lia |].
  rewrite calls_bind, outcome_bind, calls_filter_elements.
  destruct (outcome (filter_elements P kw act)) as [els |]; [| unfold calls; simpl; lia].
  simpl outcome. cbv iota. rewrite calls_found_index_step.
  change (calls CallGetGUIThreadInfo (ret (Population (P:=P) els))) with 0%nat.
  lia.
Qed.

Lemma calls_find_windows (P : Platform) kw population :
  handle kw = None ->
  outcome (acquire_windows P kw) = Return (Population population) ->
  calls CallGetGUIThreadInfo (find_windows P kw)
  = calls CallGetGUIThreadInfo
      (active_only_windows P kw (control_id_windows P kw population)).
Proof.
  intros Hh Ha. unfold find_windows. rewrite calls_bind.
  unfold narrow_windows. rewrite Hh.
  rewrite calls_bind, outcome_bind, calls_acquire_windows, Ha.
  rewrite calls_bind, outcome_bind.
  generalize (calls CallGetGUIThreadInfo
                (active_only_windows P kw (control_id_windows P kw population))).
  intros n.
  destruct (outcome (active_only_windows P kw _)) as [act |];
    [| simpl; lia].
  destruct (Py.is_empty act); [unfold calls; simpl; lia |].
  rewrite calls_bind, outcome_bind, calls_filter_windows.
  destruct (outcome (filter_windows P kw act)) as [els |]; [| unfold calls; simpl; lia].
  simpl outcome. cbv iota. rewrite calls_bind, calls_found_index_step.
  change (calls CallGetGUIThreadInfo (ret (Population (P:=P) els))) with 0%nat.
  destruct (outcome (found_index_step P (found_index kw) els));
    unfold calls; simpl; lia.
Qed.

Section ActiveOnlyStep.

Context (P : Platform).

Lemma active_only_elements_calls kw elements :
  active_only kw = Some true ->
  calls CallGetGUIThreadInfo (active_only_elements P kw elements) = 1%nat.
Proof.
  intros Hact. unfold active_only_elements. rewrite Hact.
  simpl Py.default. cbv iota.
  rewrite calls_bind, calls_active_window.
  destruct (outcome (active_window P)); reflexivity.
Qed.

Lemma active_only_windows_calls kw windows :
  active_only kw = Some true ->
  calls CallGetGUIThreadInfo (active_only_windows P kw windows) = 1%nat.
Proof.
  intros Hact. unfold active_only_windows. rewrite Hact.
  simpl Py.default. cbv iota.
  rewrite calls_bind, calls_active_window.
  destruct (outcome (active_window P)); reflexivity.
Qed.

(** The step on elements, when the query succeeds. *)
Lemma active_only_elements_reduces kw elements :
  active_only kw = Some true -> GetGUIThreadInfo_ret P = true ->
  ((exists elem, In elem elements /\ ei_handle P elem = Some (hwndActive P)) ->
   exists elem, In elem elements /\
                ei_handle P elem = Some (hwndActive P) /\
                outcome (active_only_elements P kw elements) = Return [elem]) /\
  ((forall elem, In elem elements -> ei_handle P elem <> Some (hwndActive P)) ->
   outcome (active_only_elements P kw elements) = Return []).
Proof.
  intros Hact Hret.
  assert (E : outcome (active_only_elements P kw elements)
              = Return match find (fun elem =>
                                     match ei_handle P elem with
                                     | Some h => h =? hwndActive P
                                     | None => false
                                     end) elements with
                       | Some elem => [elem]
                       | None => []
                       end).
  { unfold active_only_elements, active_window. rewrite Hact, Hret.
    reflexivity. }
  rewrite E. clear E.
  destruct (find _ elements) as [elem |] eqn:F; split.
  - intros _. exists elem. apply find_some in F. destruct F as [Hin Hp].
    split; [assumption | split; [| reflexivity]].
    destruct (ei_handle P elem) as [h |]; [| discriminate].
    apply Z.eqb_eq in Hp. now subst.
  - intros Hno. exfalso. apply find_some in F. destruct F as [Hin Hp].
    apply (Hno elem Hin).
    destruct (ei_handle P elem) as [h |]; [| discriminate].
    apply Z.eqb_eq in Hp. now subst.
  - intros [elem [Hin Hh]]. exfalso.
    pose proof (find_none _ _ F elem Hin) as Hp. simpl in Hp.
    rewrite Hh, Z.eqb_refl in Hp. discriminate.
  - reflexivity.
Qed.

(** The step on handles, when the query succeeds. *)
Lemma active_only_windows_reduces kw windows :
  active_only kw = Some true -> GetGUIThreadInfo_ret P = true ->
  (In (hwndActive P) windows ->
   outcome (active_only_windows P kw windows) = Return [hwndActive P]) /\
  (~ In (hwndActive P) windows ->
   outcome (active_only_windows P kw windows) = Return []).
Proof.
  intros Hact Hret.
  assert (E : outcome (active_only_windows P kw windows)
              = Return (if existsb (fun win => win =? hwndActive P) windows
                        then [hwndActive P] else [])).
  { unfold active_only_windows, active_window. rewrite Hact, Hret.
    reflexivity. }
  rewrite E. clear E.
  destruct (existsb (fun win => win =? hwndActive P) windows) eqn:F;
    split; try reflexivity.
  - intros Hno. exfalso. apply Hno.
    apply existsb_exists in F. destruct F as [x [Hin Hx]].
    apply Z.eqb_eq in Hx. now subst.
  - intros Hin. exfalso.
    assert (F' : existsb (fun win => win =? hwndActive P) windows = true).
    { apply existsb_exists. exists (hwndActive P).
      split; [assumption | apply Z.eqb_refl]. }
    rewrite F in F'. discriminate.
Qed.

End ActiveOnlyStep.

(** C9, as the code has it.  With [active_only] true, no [handle] and a
    population acquired (the [ctrl_index] short cut not taken), the call
    asks the platform once ([GetGUIThreadInfo]), however many elements
    there are.  When the query succeeds: if some element of the current
    population (what the [control_id] step left) has the active handle,
    the population becomes that one element and the rest of the call runs
    on it alone (on [[hwndActive]] in [find_windows]); otherwise the
    population becomes empty and the call returns the empty list.  The
    step itself behaves so on every list. *)
Theorem active_only_one_query (P : Platform) :
  (forall kw,
      active_only kw = Some true ->
      (forall elements,
          calls CallGetGUIThreadInfo (active_only_elements P kw elements) = 1%nat /\
          (GetGUIThreadInfo_ret P = true ->
           ((exists elem, In elem elements /\
                          ei_handle P elem = Some (hwndActive P)) ->
            exists elem, In elem elements /\
                         ei_handle P elem = Some (hwndActive P) /\
                         outcome (active_only_elements P kw elements)
                         = Return [elem]) /\
           ((forall elem, In elem elements ->
                          ei_handle P elem <> Some (hwndActive P)) ->
            outcome (active_only_elements P kw elements) = Return []))) /\
      (forall population,
          handle kw = None ->
          outcome (acquire_elements P kw) = Return (Population population) ->
          calls CallGetGUIThreadInfo (find_elements P kw) = 1%nat /\
          (GetGUIThreadInfo_ret P = true ->
           ((exists elem, In elem (control_id_elements P kw population) /\
                          ei_handle P elem = Some (hwndActive P)) ->
            exists elem, In elem (control_id_elements P kw population) /\
                         ei_handle P elem = Some (hwndActive P) /\
                         outcome (find_elements P kw)
                         = outcome (elements <- filter_elements P kw [elem] ;;
                                    found_index_step P (found_index kw) elements)) /\
           ((forall elem, In elem (control_id_elements P kw population) ->
                          ei_handle P elem <> Some (hwndActive P)) ->
            outcome (find_elements P kw) = Return [])))) /\
  (forall kw,
      active_only kw = Some true ->
      (forall windows,
          calls CallGetGUIThreadInfo (active_only_windows P kw windows) = 1%nat /\
          (GetGUIThreadInfo_ret P = true ->
           (In (hwndActive P) windows ->
            outcome (active_only_windows P kw windows)
            = Return [hwndActive P]) /\
           (~ In (hwndActive P) windows ->
            outcome (active_only_windows P kw windows) = Return []))) /\
      (forall population,
          handle kw = None ->
          outcome (acquire_windows P kw) = Return (Population population) ->
          calls CallGetGUIThreadInfo (find_windows P kw) = 1%nat /\
          (GetGUIThreadInfo_ret P = true ->
           (In (hwndActive P) (control_id_windows P kw population) ->
            outcome (find_windows P kw)
            = outcome (windows <- filter_windows P kw [hwndActive P] ;;
                       windows <- found_index_step P (found_index kw) windows ;;
                       ret (map (NativeElementInfo P) windows))) /\
           (~ In (hwndActive P) (control_id_windows P kw population) ->
            outcome (find_windows P kw) = Return [])))).
Proof.
  split; intros kw Hact.
  - split.
    + intros elements. split; [now apply active_only_elements_calls |].
      intros Hret. now apply active_only_elements_reduces.
    + intros population Hh Ha. split.
      * rewrite (calls_find_elements P kw population Hh Ha).
        now apply active_only_elements_calls.
      * intros Hret.
        destruct (active_only_elements_reduces
                    P kw (control_id_elements P kw population) Hact Hret)
          as [Hfound Hnone].
        assert (E : outcome (find_elements P kw)
                    = match outcome (active_only_elements
                                       P kw (control_id_elements P kw population)) with
                      | Return act =>
                          if Py.is_empty act then Return act
                          else outcome (elements <- filter_elements P kw act ;;
                                        found_index_step P (found_index kw) elements)
                      | Raise e => Raise e
                      end).
        { unfold find_elements. rewrite outcome_bind.
          unfold narrow_elements. rewrite Hh, outcome_bind, Ha, outcome_bind.
          destruct (outcome (active_only_elements P kw _)) as [act |];
            [| reflexivity].
          destruct (Py.is_empty act); [reflexivity |].
          rewrite !outcome_bind.
          destruct (outcome (filter_elements P kw act)); reflexivity. }
        split.
        -- intros Hex. destruct (Hfound Hex) as [elem [Hin [Hhd Ho]]].
           exists elem. split; [assumption | split; [assumption |]].
           now rewrite E, Ho.
        -- intros Hno. now rewrite E, (Hnone Hno).
  - split.
    + intros windows. split; [now apply active_only_windows_calls |].
      intros Hret. now apply active_only_windows_reduces.
    + intros population Hh Ha. split.
      * rewrite (calls_find_windows P kw population Hh Ha).
        now apply active_only_windows_calls.
      * intros Hret.
        destruct (active_only_windows_reduces
                    P kw (control_id_windows P kw population) Hact Hret)
          as [Hfound Hnone].
        assert (E : outcome (find_windows P kw)
                    = match outcome (active_only_windows
                                       P kw (control_id_windows P kw population)) with
                      | Return act =>
                          if Py.is_empty act then Return []
                          else outcome (windows <- filter_windows P kw act ;;
                                        windows <- found_index_step
                                                     P (found_index kw) windows ;;
                                        ret (map (NativeElementInfo P) windows))
                      | Raise e => Raise e
                      end).
        { unfold find_windows. rewrite outcome_bind.
          unfold narrow_windows. rewrite Hh, outcome_bind, Ha, outcome_bind.
          destruct (outcome (active_only_windows P kw _)) as [act |];
            [| reflexivity].
          destruct (Py.is_empty act); [reflexivity |].
          rewrite !outcome_bind.
          destruct (outcome (filter_windows P kw act)); reflexivity. }
        split.
        -- intros Hin. now rewrite E, (Hfound Hin).
        -- intros Hno. now rewrite E, (Hnone Hno).
Qed.

Lemma active_only_one_query_witness :
  calls CallGetGUIThreadInfo
    (find_elements Desk.uia (Desk.set_active_only true Desk.call)) = 1%nat
  /\ outcome (find_elements Desk.uia (Desk.set_active_only true Desk.call))
     = Return [Some 100]
  /\ outcome (find_windows Desk.native
                (Desk.set_active_only true (Desk.set_control_id 15 Desk.call)))
     = Return []
  /\ outcome (active_only_windows Desk.native
                (Desk.set_active_only true Desk.call) [200; 100; 300])
     = Return [100].
Proof.
  split; [| split; [| split]].
  - apply (proj1 (proj2 (proj1 (active_only_one_query Desk.uia)
                               (Desk.set_active_only true Desk.call) eq_refl)
                        [Some 100; Some 200; Some 300; Some 400]
                        eq_refl eq_refl)).
  - destruct (proj1 (proj2 (proj2 (proj1 (active_only_one_query Desk.uia)
                                         (Desk.set_active_only true Desk.call)
                                         eq_refl)
                                  [Some 100; Some 200; Some 300; Some 400]
                                  eq_refl eq_refl)
                           eq_refl))
      as [elem [_ [Hh Ho]]].
    + exists (Some 100). split; [left; reflexivity | reflexivity].
    + simpl in Hh. subst elem. exact Ho.
  - apply (proj2 (proj2 (proj2 (proj2 (active_only_one_query Desk.native)
                                      (Desk.set_active_only true
                                         (Desk.set_control_id 15 Desk.call))
                                      eq_refl)
                               [100; 200; 300; 400]
                               eq_refl eq_refl)
                        eq_refl)).
    simpl. intros [].
  - apply (proj1 (proj2 (proj1 (proj2 (active_only_one_query Desk.native)
                                      (Desk.set_active_only true Desk.call)
                                      eq_refl)
                               [200; 100; 300])
                        eq_refl)).
    simpl. right. left. reflexivity.
Defined.

(** C9 as stated fails when the call returns before the step: with
    [handle] given, or with the [ctrl_index] short cut taken, [active_only]
    makes no query at all, and what is returned is not the active window
    (100). *)
Lemma active_only_counterexample :
  hwndActive Desk.uia = 100
  /\ calls CallGetGUIThreadInfo
       (find_elements Desk.uia
          (Desk.set_active_only true (Desk.set_handle 200 Desk.call)))
     = 0%nat
  /\ outcome (find_elements Desk.uia
                (Desk.set_active_only true (Desk.set_handle 200 Desk.call)))
     = Return [Some 200]
  /\ calls CallGetGUIThreadInfo
       (find_windows Desk.native
          (Desk.set_active_only true
             (Desk.set_ctrl_index 1 (Desk.set_top_level_only false Desk.call))))
     = 0%nat
  /\ outcome (find_windows Desk.native
                (Desk.set_active_only true
                   (Desk.set_ctrl_index 1
                      (Desk.set_top_level_only false Desk.call))))
     = Return [Some 200].
Proof. repeat split. Qed.

(** ** Elements without text *)

Section UndefinedText.

Context (P : Platform).

Lemma title_match_defined regex w :
  outcome (_title_match P regex w) = Return true -> ei_windowText P w <> None.
Proof.
  unfold _title_match. destruct (ei_windowText P w); [discriminate |].
  simpl. discriminate.
Qed.

Lemma title_match_window_defined regex w :
  outcome (_title_match_window P regex w) = Return true ->
  handleprops_text P w <> None.
Proof.
  unfold _title_match_window. destruct (handleprops_text P w); [discriminate |].
  simpl. discriminate.
Qed.

Lemma acquire_elements_no_short_cut kw :
  past_ctrl_index kw = true ->
  exists population,
    outcome (acquire_elements P kw) = Return (Population population).
Proof.
  unfold past_ctrl_index, acquire_elements.
  destruct (Py.default true (top_level_only kw)); [eexists; reflexivity |].
  destruct (ctrl_index kw); [discriminate |]. eexists; reflexivity.
Qed.

Lemma acquire_windows_no_short_cut kw :
  past_ctrl_index kw = true ->
  exists population,
    outcome (acquire_windows P kw) = Return (Population population).
Proof.
  unfold past_ctrl_index, acquire_windows.
  destruct (Py.default true (top_level_only kw)); [eexists; reflexivity |].
  destruct (ctrl_index kw); [discriminate |].
  destruct (window_parent kw); eexists; reflexivity.
Qed.

Lemma filter_elements_text kw pattern l res :
  title kw = None -> title_re kw = Some pattern -> best_match kw = None ->
  outcome (filter_elements P kw l) = Return res ->
  forall elem, In elem res -> ei_windowText P elem <> None.
Proof.
  intros Ht Hr Hb. unfold filter_elements.
  rewrite outcome_bind.
  destruct (outcome (class_name_re_elements P kw _)) as [r1 |];
    [| discriminate].
  rewrite outcome_bind.
  destruct (outcome (title_elements P kw _)) as [r2 |] eqn:E2;
    [| discriminate].
  unfold best_match_elements. rewrite Hb. simpl.
  intros H; inversion H; subst; clear H.
  intros elem He.
  apply predicate_elements_incl in He.
  assert (H2 : In elem r2).
  { unfold enabled_elements, visible_elements in He.
    destruct (Py.default false (enabled_only kw));
      destruct (Py.default true (visible_only kw));
      repeat (apply filter_In in He; destruct He as [He _]); exact He. }
  unfold title_elements, compile in E2. rewrite Ht, Hr in E2.
  destruct (re_compile P pattern) as [regex |]; [| discriminate].
  rewrite outcome_bind in E2. simpl in E2.
  destruct (filterM_Return _ _ _ E2 elem H2) as [_ Hm].
  exact (title_match_defined regex elem Hm).
Qed.

Lemma filter_windows_text kw pattern l res :
  title kw = None -> title_re kw = Some pattern -> best_match kw = None ->
  outcome (filter_windows P kw l) = Return res ->
  forall win, In win res -> handleprops_text P win <> None.
Proof.
  intros Ht Hr Hb. unfold filter_windows.
  rewrite outcome_bind.
  destruct (outcome (class_name_re_windows P kw _)) as [r1 |];
    [| discriminate].
  rewrite outcome_bind.
  destruct (outcome (title_windows P kw _)) as [r2 |] eqn:E2;
    [| discriminate].
  unfold best_match_windows. rewrite Hb. simpl.
  intros H; inversion H; subst; clear H.
  intros win He.
  assert (H1 : In win (enabled_windows P kw (visible_windows P kw r2))).
  { unfold predicate_windows in He.
    destruct (predicate_func kw); [| exact He].
    apply filter_In in He. tauto. }
  assert (H2 : In win r2).
  { unfold enabled_windows, visible_windows in H1.
    destruct (Py.default false (enabled_only kw));
      destruct (Py.default true (visible_only kw));
      repeat (apply filter_In in H1; destruct H1 as [H1 _]); exact H1. }
  unfold title_windows, compile in E2. rewrite Ht, Hr in E2.
  destruct (re_compile P pattern) as [regex |]; [| discriminate].
  rewrite outcome_bind in E2. simpl in E2.
  destruct (filterM_Return _ _ _ E2 win H2) as [_ Hm].
  exact (title_match_window_defined regex win Hm).
Qed.

End UndefinedText.

(** C8, as the code has it.  With [title_re] given and [title] not, an
    element whose text is None does not match: [_title_match] returns
    False for it without calling the pattern (which would raise TypeError
    on None), and the title step is a plain filter that raises nothing and
    keeps only elements whose text is defined and matches.  When [handle]
    is not given, the [ctrl_index] short cut is not taken ([ctrl_index]
    not given, or top-level mode) and [best_match] is not given, no such
    element is in the result of the call. *)
Theorem undefined_text_never_matches (P : Platform) :
  (forall regex,
      regex_match P regex None = ([], Raise TypeError) /\
      (forall w, ei_windowText P w = None ->
                 _title_match P regex w = ([], Return false)) /\
      (forall w, handleprops_text P w = None ->
                 _title_match_window P regex w = ([], Return false))) /\
  (forall kw pattern,
      title kw = None -> title_re kw = Some pattern ->
      (forall regex elements,
          re_compile P pattern = Some regex ->
          title_elements P kw elements
          = ([], Return (filter (fun elem =>
                                   match ei_windowText P elem with
                                   | Some t => re_match P regex t
                                   | None => false
                                   end) elements))) /\
      (handle kw = None -> past_ctrl_index kw = true -> best_match kw = None ->
       forall result,
         outcome (find_elements P kw) = Return result ->
         forall elem, In elem result -> ei_windowText P elem <> None)) /\
  (forall kw pattern,
      title kw = None -> title_re kw = Some pattern ->
      (forall regex windows,
          re_compile P pattern = Some regex ->
          title_windows P kw windows
          = ([], Return (filter (fun win =>
                                   match handleprops_text P win with
                                   | Some t => re_match P regex t
                                   | None => false
                                   end) windows))) /\
      (handle kw = None -> past_ctrl_index kw = true -> best_match kw = None ->
       forall result,
         outcome (find_windows P kw) = Return result ->
         forall x, In x result ->
                   exists win, x = NativeElementInfo P win /\
                               handleprops_text P win <> None)).
Proof.
  split; [| split].
  - intros regex. split; [reflexivity |]. split; intros w Hw.
    + unfold _title_match. now rewrite Hw.
    + unfold _title_match_window. now rewrite Hw.
  - intros kw pattern Ht Hr. split.
    + intros regex elements Hx.
      unfold title_elements, compile. rewrite Ht, Hr, Hx.
      change (bind (ret regex) (fun title_regex =>
                filterM (_title_match P title_regex) elements))
        with (let '(log', r) := filterM (_title_match P regex) elements in
              ([] ++ log', r)).
      rewrite (filterM_pure (_title_match P regex)
                 (fun elem => match ei_windowText P elem with
                              | Some t => re_match P regex t
                              | None => false
                              end)).
      * reflexivity.
      * intros x _. unfold _title_match.
        destruct (ei_windowText P x); reflexivity.
    + intros Hh Hc Hb result H elem He.
      unfold find_elements in H. rewrite outcome_bind in H.
      unfold narrow_elements in H. rewrite Hh, outcome_bind in H.
      destruct (acquire_elements_no_short_cut P kw Hc) as [pop Ha].
      rewrite Ha, outcome_bind in H.
      destruct (outcome (active_only_elements P kw _)) as [act |];
        [| discriminate].
      destruct act as [| a act].
      * simpl in H. inversion H; subst. destruct He.
      * simpl Py.is_empty in H. cbv iota in H. rewrite outcome_bind in H.
        destruct (outcome (filter_elements P kw (a :: act))) as [els |] eqn:Ef;
          [| discriminate].
        simpl outcome in H. cbv iota in H.
        apply (filter_elements_text P kw pattern (a :: act) els Ht Hr Hb Ef).
        exact (found_index_step_incl P (found_index kw) els result H elem He).
  - intros kw pattern Ht Hr. split.
    + intros regex windows Hx.
      unfold title_windows, compile. rewrite Ht, Hr, Hx.
      change (bind (ret regex) (fun title_regex =>
                filterM (_title_match_window P title_regex) windows))
        with (let '(log', r) := filterM (_title_match_window P regex) windows in
              ([] ++ log', r)).
      rewrite (filterM_pure (_title_match_window P regex)
                 (fun win => match handleprops_text P win with
                             | Some t => re_match P regex t
                             | None => false
                             end)).
      * reflexivity.
      * intros x _. unfold _title_match_window.
        destruct (handleprops_text P x); reflexivity.
    + intros Hh Hc Hb result H x Hx.
      unfold find_windows in H. rewrite outcome_bind in H.
      unfold narrow_windows in H. rewrite Hh, outcome_bind in H.
      destruct (acquire_windows_no_short_cut P kw Hc) as [pop Ha].
      rewrite Ha, outcome_bind in H.
      destruct (outcome (active_only_windows P kw _)) as [act |];
        [| discriminate].
      destruct act as [| a act].
      * simpl in H. inversion H; subst. destruct Hx.
      * simpl Py.is_empty in H. cbv iota in H. rewrite outcome_bind in H.
        destruct (outcome (filter_windows P kw (a :: act))) as [ws |] eqn:Ef;
          [| discriminate].
        simpl outcome in H. cbv iota in H. rewrite outcome_bind in H.
        destruct (outcome (found_index_step P (found_index kw) ws))
          as [sel |] eqn:Es; [| discriminate].
        simpl in H. inversion H; subst; clear H.
        apply in_map_iff in Hx. destruct Hx as [win [<- Hw]].
        exists win. split; [reflexivity |].
        apply (filter_windows_text P kw pattern (a :: act) ws Ht Hr Hb Ef).
        exact (found_index_step_incl P (found_index kw) ws sel Es win Hw).
Qed.

Lemma undefined_text_never_matches_witness :
  title_elements Desk.uia (with_title_re (Some "") Desk.call)
    [Some 100; Some 300; Some 200]
  = ([], Return [Some 100; Some 200])
  /\ ei_windowText Desk.uia (Some 300) = None
  /\ ~ In (Some 300)
         [Some 100; Some 200]
  /\ outcome (find_elements Desk.uia (with_title_re (Some "") Desk.call))
     = Return [Some 100; Some 200].
Proof.
  split; [| split; [reflexivity | split; [| reflexivity]]].
  - apply (proj1 (proj1 (proj2 (undefined_text_never_matches Desk.uia))
                        (with_title_re (Some "") Desk.call) ""
                        eq_refl eq_refl)
                 "" [Some 100; Some 300; Some 200] eq_refl).
  - intros Hin.
    apply (proj2 (proj1 (proj2 (undefined_text_never_matches Desk.uia))
                        (with_title_re (Some "") Desk.call) ""
                        eq_refl eq_refl)
                 eq_refl eq_refl eq_refl
                 [Some 100; Some 200] eq_refl (Some 300) Hin).
    reflexivity.
Defined.

(** C8 as stated fails when the call returns before the title step:
    window 300 has no text, yet with [title_re] given it is returned when
    it is the [handle], and when [ctrl_index] picks it in descendant
    mode. *)
Lemma undefined_text_counterexample :
  ei_windowText Desk.uia (Some 300) = None
  /\ outcome (find_elements Desk.uia
                (with_title_re (Some "") (Desk.set_handle 300 Desk.call)))
     = Return [Some 300]
  /\ outcome (find_elements Desk.uia
                (with_title_re (Some "")
                   (Desk.set_ctrl_index 4
                      (Desk.set_top_level_only false Desk.call))))
     = Return [Some 300]
  /\ handleprops_text Desk.native 300 = None
  /\ outcome (find_windows Desk.native
                (with_title_re (Some "") (Desk.set_handle 300 Desk.call)))
     = Return [NativeElementInfo Desk.native 300]
  /\ outcome (find_windows Desk.native
                (with_title_re (Some "")
                   (Desk.set_ctrl_index 2
                      (Desk.set_top_level_only false Desk.call))))
     = Return [NativeElementInfo Desk.native 300].
Proof. repeat split. Qed.

(** ** The filters as one condition *)

Lemma filter_true {A} (l : list A) : filter (fun _ => true) l = l.
Proof.
  induction l as [| a l IH]; simpl; [reflexivity | now rewrite IH].
Qed.

Lemma bind_Return_l {EI A B} (a : A) (k : A -> M EI B) :
  bind ([], Return a) k = k a.
Proof. unfold bind. destruct (k a). reflexivity. Qed.

Lemma bind_ret_l {EI A B} (a : A) (k : A -> M EI B) : bind (ret a) k = k a.
Proof. apply bind_Return_l. Qed.

Section AsFilter.

Context (P : Platform).

Lemma compile_run pattern :
  compile P pattern
  = ([], match re_compile P pattern with
         | Some regex => Return regex
         | None => Raise re_error
         end).
Proof. unfold compile. destruct (re_compile P pattern); reflexivity. Qed.

Section Elements.

Variable kw : Kwargs (ParentArg (ElementInfo P)) (ElementInfo P).

Lemma class_name_re_elements_run l :
  class_name_re_elements P kw l
  = ([], if pattern_ok P (class_name_re kw)
         then Return (filter (fun elem =>
                                matches_pattern P (class_name_re kw)
                                                (ei_className P elem)) l)
         else Raise re_error).
Proof.
  unfold class_name_re_elements, pattern_ok, matches_pattern.
  destruct (class_name_re kw) as [pat |].
  - rewrite compile_run. destruct (re_compile P pat); reflexivity.
  - now rewrite filter_true.
Qed.

Lemma title_elements_run l :
  title_elements P kw l
  = ([], if match title kw with
            | Some _ => true
            | None => pattern_ok P (title_re kw)
            end
         then Return (filter (fun elem =>
                                title_passes P kw (ei_windowText P elem)) l)
         else Raise re_error).
Proof.
  unfold title_elements, title_passes, pattern_ok, matches_pattern.
  destruct (title kw) as [s |]; [reflexivity |].
  destruct (title_re kw) as [pat |].
  - rewrite compile_run. destruct (re_compile P pat) as [regex |];
      [| reflexivity].
    rewrite bind_Return_l.
    apply (filterM_pure (_title_match P regex)
             (fun elem => match ei_windowText P elem with
                          | Some t => re_match P regex t
                          | None => false
                          end)).
    intros x _. unfold _title_match. destruct (ei_windowText P x); reflexivity.
  - now rewrite filter_true.
Qed.

(** Without [best_match], lines 183-235 are one filter, or re.error. *)
Lemma filter_elements_run l :
  best_match kw = None ->
  filter_elements P kw l
  = ([], if patterns_compile P kw
         then Return (filter (element_passes P kw) l)
         else Raise re_error).
Proof.
  intros Hb. unfold filter_elements, patterns_compile.
  rewrite class_name_re_elements_run.
  destruct (pattern_ok P (class_name_re kw)); [| reflexivity].
  rewrite bind_Return_l, title_elements_run.
  destruct (match title kw with
            | Some _ => true
            | None => pattern_ok P (title_re kw)
            end); [| reflexivity].
  rewrite bind_Return_l.
  unfold best_match_elements. rewrite Hb, bind_ret_l.
  unfold ret. simpl andb. cbv iota. do 2 f_equal.
  unfold predicate_elements, enabled_elements, visible_elements,
    process_elements, class_name_elements, element_passes.
  repeat match goal with
         | |- context [match ?o with Some _ => filter _ ?l | None => ?l end] =>
             replace (match o with Some f => filter f l | None => l end)
               with (filter (fun x => match o with Some f => f x | None => true end) l)
               by (destruct o; [reflexivity | apply filter_true])
         end.
  destruct (class_name kw), (process kw), (predicate_func kw),
    (Py.default true (visible_only kw)), (Py.default false (enabled_only kw));
    rewrite ?filter_filter;
    apply filter_ext; intros x;
    rewrite ?andb_true_r, ?andb_true_l, ?andb_assoc; reflexivity.
Qed.

End Elements.

End AsFilter.

Section AsFilterWindows.

Context (P : Platform).
Variable kw : Kwargs HWND HWND.

Lemma class_name_re_windows_run l :
  class_name_re_windows P kw l
  = ([], if pattern_ok P (class_name_re kw)
         then Return (filter (fun win =>
                                matches_pattern P (class_name_re kw)
                                                (handleprops_classname P win)) l)
         else Raise re_error).
Proof.
  unfold class_name_re_windows, pattern_ok, matches_pattern.
  destruct (class_name_re kw) as [pat |].
  - rewrite compile_run. destruct (re_compile P pat); reflexivity.
  - now rewrite filter_true.
Qed.

Lemma title_windows_run l :
  title_windows P kw l
  = ([], if match title kw with
            | Some _ => true
            | None => pattern_ok P (title_re kw)
            end
         then Return (filter (fun win =>
                                title_passes P kw (handleprops_text P win)) l)
         else Raise re_error).
Proof.
  unfold title_windows, title_passes, pattern_ok, matches_pattern.
  destruct (title kw) as [s |]; [reflexivity |].
  destruct (title_re kw) as [pat |].
  - rewrite compile_run. destruct (re_compile P pat) as [regex |];
      [| reflexivity].
    rewrite bind_Return_l.
    apply (filterM_pure (_title_match_window P regex)
             (fun win => match handleprops_text P win with
                         | Some t => re_match P regex t
                         | None => false
                         end)).
    intros x _. unfold _title_match_window.
    destruct (handleprops_text P x); reflexivity.
  - now rewrite filter_true.
Qed.

(** Without [best_match], lines 339-388 are one filter, or re.error. *)
Lemma filter_windows_run l :
  best_match kw = None ->
  filter_windows P kw l
  = ([], if patterns_compile P kw
         then Return (filter (window_passes P kw) l)
         else Raise re_error).
Proof.
  intros Hb. unfold filter_windows, patterns_compile.
  rewrite class_name_re_windows_run.
  destruct (pattern_ok P (class_name_re kw)); [| reflexivity].
  rewrite bind_Return_l, title_windows_run.
  destruct (match title kw with
            | Some _ => true
            | None => pattern_ok P (title_re kw)
            end); [| reflexivity].
  rewrite bind_Return_l.
  unfold best_match_windows. rewrite Hb, bind_ret_l.
  unfold ret. simpl andb. cbv iota. do 2 f_equal.
  unfold predicate_windows, enabled_windows, visible_windows,
    process_windows, class_name_windows, window_passes.
  repeat match goal with
         | |- context [match ?o with Some _ => filter _ ?l | None => ?l end] =>
             replace (match o with Some f => filter f l | None => l end)
               with (filter (fun x => match o with Some f => f x | None => true end) l)
               by (destruct o; [reflexivity | apply filter_true])
         end.
  destruct (class_name kw), (process kw), (predicate_func kw),
    (Py.default true (visible_only kw)), (Py.default false (enabled_only kw));
    rewrite ?filter_filter;
    apply filter_ext; intros x;
    rewrite ?andb_true_r, ?andb_true_l, ?andb_assoc; reflexivity.
Qed.

End AsFilterWindows.

Lemma control_id_elements_filter (P : Platform) kw l :
  control_id_elements P kw l
  = filter (fun elem => match control_id kw with
                        | Some id => ei_controlId P elem =? id
                        | None => true
                        end) l.
Proof.
  unfold control_id_elements. destruct (control_id kw) as [id |].
  - destruct l; reflexivity.
  - now rewrite filter_true.
Qed.

Lemma control_id_windows_filter (P : Platform) kw l :
  control_id_windows P kw l
  = filter (fun win => match control_id kw with
                       | Some id => handleprops_controlid P win =? id
                       | None => true
                       end) l.
Proof.
  unfold control_id_windows. destruct (control_id kw) as [id |].
  - destruct l; reflexivity.
  - now rewrite filter_true.
Qed.

Lemma is_empty_nil {A} (l : list A) : Py.is_empty l = true -> l = [].
Proof. destruct l; [reflexivity | discriminate]. Qed.

Lemma acquire_elements_past (P : Platform) kw :
  past_ctrl_index kw = true ->
  exists population,
    outcome (acquire_elements P kw) = Return (Population population).
Proof.
  unfold past_ctrl_index, acquire_elements.
  destruct (Py.default true (top_level_only kw)); [eexists; reflexivity |].
  destruct (ctrl_index kw); [discriminate |]. eexists; reflexivity.
Qed.

Lemma acquire_windows_past (P : Platform) kw :
  past_ctrl_index kw = true ->
  exists population,
    outcome (acquire_windows P kw) = Return (Population population).
Proof.
  unfold past_ctrl_index, acquire_windows.
  destruct (Py.default true (top_level_only kw)); [eexists; reflexivity |].
  destruct (ctrl_index kw); [discriminate |].
  destruct (window_parent kw); eexists; reflexivity.
Qed.

(** ** What a call returns *)

(** X1.  Without [handle], [best_match], [found_index] and [active_only],
    and with patterns that compile, a call that acquires a population
    returns exactly the members of that population that pass every given
    criterion ([control_id], [class_name], [class_name_re], [process],
    [title] or else [title_re], [visible_only], [enabled_only],
    [predicate_func]), in the order of the population; [find_windows]
    returns their [NativeElementInfo]. *)
Theorem find_is_filter (P : Platform) :
  (forall kw population,
      handle kw = None -> best_match kw = None -> found_index kw = None ->
      Py.default false (active_only kw) = false ->
      patterns_compile P kw = true ->
      outcome (acquire_elements P kw) = Return (Population population) ->
      outcome (find_elements P kw)
      = Return (filter (element_satisfies P kw) population)) /\
  (forall kw population,
      handle kw = None -> best_match kw = None -> found_index kw = None ->
      Py.default false (active_only kw) = false ->
      patterns_compile P kw = true ->
      outcome (acquire_windows P kw) = Return (Population population) ->
      outcome (find_windows P kw)
      = Return (map (NativeElementInfo P)
                    (filter (window_satisfies P kw) population))).
Proof.
  split; intros kw population Hh Hb Hf Hact Hp Ha.
  - assert (E : filter (element_satisfies P kw) population
                = filter (element_passes P kw)
                         (control_id_elements P kw population)).
    { rewrite control_id_elements_filter, filter_filter. reflexivity. }
    unfold find_elements. rewrite outcome_bind.
    unfold narrow_elements. rewrite Hh, outcome_bind, Ha.
    unfold active_only_elements. rewrite Hact, bind_ret_l.
    destruct (Py.is_empty (control_id_elements P kw population)) eqn:Ee.
    + apply is_empty_nil in Ee. rewrite E, Ee. reflexivity.
    + rewrite (filter_elements_run P kw _ Hb), Hp, bind_Return_l.
      simpl outcome. cbv iota. rewrite Hf, E. reflexivity.
  - assert (E : filter (window_satisfies P kw) population
                = filter (window_passes P kw)
                         (control_id_windows P kw population)).
    { rewrite control_id_windows_filter, filter_filter. reflexivity. }
    unfold find_windows. rewrite outcome_bind.
    unfold narrow_windows. rewrite Hh, outcome_bind, Ha.
    unfold active_only_windows. rewrite Hact, bind_ret_l.
    destruct (Py.is_empty (control_id_windows P kw population)) eqn:Ee.
    + apply is_empty_nil in Ee. rewrite E, Ee. reflexivity.
    + rewrite (filter_windows_run P kw _ Hb), Hp, bind_Return_l.
      simpl outcome. cbv iota. rewrite Hf, E. reflexivity.
Qed.

Lemma find_is_filter_witness :
  outcome (find_elements Desk.uia
             (Desk.set_visible_only false (Desk.set_class_name "Notepad" Desk.call)))
  = Return [Some 100; Some 400]
  /\ outcome (find_windows Desk.native
                (with_title_re (Some "C") Desk.call))
     = Return [Some 200].
Proof.
  split.
  - apply (proj1 (find_is_filter Desk.uia)
                 (Desk.set_visible_only false (Desk.set_class_name "Notepad" Desk.call))
                 [Some 100; Some 200; Some 300; Some 400]
                 eq_refl eq_refl eq_refl eq_refl eq_refl eq_refl).
  - apply (proj2 (find_is_filter Desk.native)
                 (with_title_re (Some "C") Desk.call)
                 [100; 200; 300; 400]
                 eq_refl eq_refl eq_refl eq_refl eq_refl eq_refl).
Defined.

(** X2.  Whatever [active_only] and [found_index] are: when a call without
    [handle], without [best_match] and past the [ctrl_index] short cut
    returns, every element of the result passes every given criterion. *)
Theorem result_satisfies_criteria (P : Platform) :
  (forall kw result,
      handle kw = None -> best_match kw = None -> past_ctrl_index kw = true ->
      outcome (find_elements P kw) = Return result ->
      forall elem, In elem result -> element_satisfies P kw elem = true) /\
  (forall kw result,
      handle kw = None -> best_match kw = None -> past_ctrl_index kw = true ->
      outcome (find_windows P kw) = Return result ->
      forall x, In x result ->
                exists win, x = NativeElementInfo P win /\
                            window_satisfies P kw win = true).
Proof.
  split; intros kw result Hh Hb Hc H x Hx.
  - unfold find_elements in H. rewrite outcome_bind in H.
    unfold narrow_elements in H. rewrite Hh, outcome_bind in H.
    destruct (acquire_elements_past P kw Hc) as [pop Ha].
    rewrite Ha, outcome_bind in H.
    destruct (outcome (active_only_elements P kw _)) as [act |] eqn:Eact;
      [| discriminate].
    destruct (Py.is_empty act) eqn:Ee.
    + apply is_empty_nil in Ee. subst act.
      simpl in H. inversion H; subst. destruct Hx.
    + rewrite (filter_elements_run P kw _ Hb) in H.
      destruct (patterns_compile P kw); [| discriminate].
      rewrite bind_Return_l in H.
      change (outcome (ret ?a)) with (Return (EI:=ElementInfo P) a) in H.
      cbv iota in H.
      apply (found_index_step_incl P _ _ _ H) in Hx.
      apply filter_In in Hx. destruct Hx as [Hin Hpass].
      apply (active_only_elements_incl P kw _ _ Eact) in Hin.
      rewrite control_id_elements_filter in Hin.
      apply filter_In in Hin. destruct Hin as [_ Hid].
      unfold element_satisfies. now rewrite Hid, Hpass.
  - unfold find_windows in H. rewrite outcome_bind in H.
    unfold narrow_windows in H. rewrite Hh, outcome_bind in H.
    destruct (acquire_windows_past P kw Hc) as [pop Ha].
    rewrite Ha, outcome_bind in H.
    assert (Hact : forall act,
               outcome (active_only_windows P kw (control_id_windows P kw pop))
               = Return act ->
               forall win, In win act ->
                 match control_id kw with
                 | Some id => handleprops_controlid P win =? id
                 | None => true
                 end = true).
    { intros act Eact win Hw. unfold active_only_windows in Eact.
      assert (Hsub : In win (control_id_windows P kw pop)).
      { destruct (Py.default false (active_only kw)).
        - rewrite outcome_bind in Eact.
          destruct (outcome (active_window P)) as [active |]; [| discriminate].
          simpl in Eact.
          destruct (existsb _ _) eqn:Ex; inversion Eact; subst;
            [| destruct Hw].
          destruct Hw as [<- | []].
          apply existsb_exists in Ex. destruct Ex as [y [Hy Heq]].
          apply Z.eqb_eq in Heq. now subst.
        - simpl in Eact. inversion Eact; subst. exact Hw. }
      rewrite control_id_windows_filter in Hsub.
      apply filter_In in Hsub. tauto. }
    destruct (outcome (active_only_windows P kw _)) as [act |] eqn:Eact;
      [| discriminate].
    destruct (Py.is_empty act) eqn:Ee.
    + apply is_empty_nil in Ee. subst act.
      simpl in H. inversion H; subst. destruct Hx.
    + rewrite (filter_windows_run P kw _ Hb) in H.
      destruct (patterns_compile P kw); [| discriminate].
      rewrite bind_Return_l in H.
      change (outcome (ret ?a)) with (Return (EI:=ElementInfo P) a) in H.
      cbv iota in H.
      rewrite outcome_bind in H.
      destruct (outcome (found_index_step P (found_index kw) _))
        as [sel |] eqn:Es; [| discriminate].
      simpl in H. inversion H; subst; clear H.
      apply in_map_iff in Hx. destruct Hx as [win [<- Hw]].
      exists win. split; [reflexivity |].
      apply (found_index_step_incl P _ _ _ Es) in Hw.
      apply filter_In in Hw. destruct Hw as [Hin Hpass].
      unfold window_satisfies.
      now rewrite (Hact _ eq_refl win Hin), Hpass.
Qed.

Lemma result_satisfies_criteria_witness :
  outcome (find_elements Desk.uia
             (Desk.set_found_index 1
                (Desk.set_visible_only false
                   (Desk.set_class_name "Notepad" Desk.call))))
  = Return [Some 400]
  /\ element_satisfies Desk.uia
       (Desk.set_found_index 1
          (Desk.set_visible_only false
             (Desk.set_class_name "Notepad" Desk.call)))
       (Some 400) = true.
Proof.
  split; [reflexivity |].
  apply (proj1 (result_satisfies_criteria Desk.uia)
               (Desk.set_found_index 1
                  (Desk.set_visible_only false
                     (Desk.set_class_name "Notepad" Desk.call)))
               [Some 400] eq_refl eq_refl eq_refl eq_refl (Some 400)).
  left. reflexivity.
Defined.

(** ** At most one element *)

Lemma slice_one_length {A} (l : list A) i :
  (List.length (Py.slice l i (i + 1)) <= 1)%nat.
Proof.
  unfold Py.slice.
  eapply Nat.le_trans; [apply firstn_le_length |].
  pose proof (len_nonneg l). unfold Py.clip.
  destruct (i <? 0) eqn:E1; destruct (i + 1 <? 0) eqn:E2; lia.
Qed.

Lemma found_index_step_length (P : Platform) {A} i (l res : list A) :
  outcome (found_index_step P (Some i) l) = Return res ->
  (List.length res <= 1)%nat.
Proof.
  unfold found_index_step. destruct (i <? Py.len l); [| discriminate].
  simpl. intros H. inversion H. apply slice_one_length.
Qed.

Lemma narrow_elements_short (P : Platform) kw result :
  outcome (narrow_elements P kw) = Return (ReturnNow result) ->
  (List.length result <= 1)%nat.
Proof.
  unfold narrow_elements. destruct (handle kw).
  - simpl. intros H. inversion H. simpl. lia.
  - rewrite outcome_bind.
    destruct (outcome (acquire_elements P kw)) as [[r | pop] |] eqn:Ea;
      [| | discriminate].
    + simpl. intros H. inversion H; subst. clear H.
      unfold acquire_elements in Ea.
      destruct (Py.default true (top_level_only kw)); [discriminate |].
      destruct (ctrl_index kw) as [i |]; [| discriminate].
      destruct (Py.index _ i); [| discriminate].
      simpl in Ea. inversion Ea. simpl. lia.
    + rewrite outcome_bind.
      destruct (outcome (active_only_elements P kw _)) as [act |];
        [| discriminate].
      destruct (Py.is_empty act) eqn:Ee.
      * apply is_empty_nil in Ee. subst. simpl. intros H. inversion H.
        simpl. lia.
      * rewrite outcome_bind.
        destruct (outcome (filter_elements P kw act)); discriminate.
Qed.

Lemma narrow_windows_short (P : Platform) kw result :
  outcome (narrow_windows P kw) = Return (ReturnNow result) ->
  (List.length result <= 1)%nat.
Proof.
  unfold narrow_windows. destruct (handle kw).
  - simpl. intros H. inversion H. simpl. lia.
  - rewrite outcome_bind.
    destruct (outcome (acquire_windows P kw)) as [[r | pop] |] eqn:Ea;
      [| | discriminate].
    + simpl. intros H. inversion H; subst. clear H.
      unfold acquire_windows in Ea.
      destruct (Py.default true (top_level_only kw)); [discriminate |].
      rewrite outcome_bind in Ea.
      destruct (outcome (match window_parent kw with
                         | Some p => ret p
                         | None => _
                         end)) as [parent |]; [| discriminate].
      destruct (ctrl_index kw) as [i |]; [| discriminate].
      destruct (Py.index _ i); [| discriminate].
      simpl in Ea. inversion Ea. simpl. lia.
    + rewrite outcome_bind.
      destruct (outcome (active_only_windows P kw _)) as [act |];
        [| discriminate].
      destruct (Py.is_empty act).
      * simpl. intros H. inversion H. simpl. lia.
      * rewrite outcome_bind.
        destruct (outcome (filter_windows P kw act)); discriminate.
Qed.

Lemma pipeline_found_index_length (P : Platform) (uia : bool)
  (kw : Kwargs (parent_type P uia) (item_type P uia)) i result :
  found_index kw = Some i ->
  outcome (pipeline P uia kw) = Return result ->
  (List.length result <= 1)%nat.
Proof.
  destruct uia; simpl in kw |- *; intros Hf.
  - unfold find_elements. rewrite outcome_bind.
    destruct (outcome (narrow_elements P kw)) as [[r | els] |] eqn:En;
      [| | discriminate].
    + simpl. intros H. inversion H; subst.
      exact (narrow_elements_short P kw result En).
    + rewrite Hf. apply found_index_step_length.
  - unfold find_windows. rewrite outcome_bind.
    destruct (outcome (narrow_windows P kw)) as [[r | ws] |] eqn:En;
      [| | discriminate].
    + simpl. intros H. inversion H; subst.
      exact (narrow_windows_short P kw result En).
    + rewrite Hf, outcome_bind.
      destruct (outcome (found_index_step P (Some i) ws)) as [sel |] eqn:Es;
        [| discriminate].
      simpl. intros H. inversion H. rewrite length_map.
      exact (found_index_step_length P i ws sel Es).
Qed.

(** X3.  With [found_index] given, whatever it is (negative, out of range)
    and whatever the other keywords are, a call that returns, returns at
    most one element. *)
Theorem found_index_at_most_one (P : Platform) (i : Z) :
  (forall kw result,
      found_index kw = Some i ->
      outcome (find_elements P kw) = Return result ->
      (List.length result <= 1)%nat) /\
  (forall kw result,
      found_index kw = Some i ->
      outcome (find_windows P kw) = Return result ->
      (List.length result <= 1)%nat).
Proof.
  split; intros kw result Hf H.
  - exact (pipeline_found_index_length P true kw i result Hf H).
  - exact (pipeline_found_index_length P false kw i result Hf H).
Qed.

Lemma found_index_at_most_one_witness :
  outcome (find_elements Desk.uia
             (Desk.set_found_index 0 (Desk.set_top_level_only false Desk.call)))
  = Return [Some 100]
  /\ (List.length [Some 100] <= 1)%nat.
Proof.
  split; [reflexivity |].
  apply (proj1 (found_index_at_most_one Desk.uia 0)
               (Desk.set_found_index 0
                  (Desk.set_top_level_only false Desk.call))
               [Some 100]).
  - reflexivity.
  - vm_compute. reflexivity.
Defined.

Lemma pipeline_handle (P : Platform) (uia : bool)
  (kw : Kwargs (parent_type P uia) (item_type P uia)) h :
  handle kw = Some h ->
  pipeline P uia kw
  = ([], Return [if uia then UIAElementInfo P (Some h)
                 else NativeElementInfo P h]).
Proof.
  destruct uia; simpl in kw |- *; intros Hh.
  - unfold find_elements, narrow_elements. now rewrite Hh.
  - unfold find_windows, narrow_windows. now rewrite Hh.
Qed.

(** X4.  [find_window] with [found_index] never finds an ambiguity: when
    the pipeline returns, the list is empty and WindowNotFoundError is
    raised, or it has one element and that element is returned. *)
Theorem find_window_found_index (P : Platform) kwargs i windows :
  found_index kwargs = Some i ->
  outcome (pipeline P (UIA_support P) kwargs) = Return windows ->
  (windows = [] /\
   outcome (find_window P kwargs) = Raise (WindowNotFoundError None)) \/
  (exists w, windows = [w] /\ outcome (find_window P kwargs) = Return w).
Proof.
  intros Hf H.
  pose proof (pipeline_found_index_length P (UIA_support P) kwargs i windows Hf H)
    as Hl.
  unfold find_window. rewrite outcome_bind, H.
  destruct windows as [| w [| w' ws]].
  - left. split; reflexivity.
  - right. exists w. split; reflexivity.
  - simpl in Hl. lia.
Qed.

Lemma find_window_found_index_witness :
  outcome (find_window Desk.uia (Desk.set_found_index 2 Desk.call))
  = Return (Some 300)
  /\ outcome (find_window Desk.native (Desk.set_found_index (-1) Desk.call))
     = Raise (WindowNotFoundError None).
Proof.
  split.
  - destruct (find_window_found_index Desk.uia
                (Desk.set_found_index 2 Desk.call) 2 [Some 300]
                eq_refl eq_refl) as [[H _] | [w [Hw Ho]]].
    + discriminate H.
    + injection Hw as <-. exact Ho.
  - destruct (find_window_found_index Desk.native
                (Desk.set_found_index (-1) Desk.call) (-1) []
                eq_refl eq_refl) as [[_ Ho] | [w [Hw _]]].
    + exact Ho.
    + discriminate Hw.
Defined.

(** X5.  [find_window] with [handle] returns the element made from the
    handle ([UIAElementInfo] with UIA support, [NativeElementInfo]
    without), makes no native call and raises nothing, whatever the other
    keywords are. *)
Theorem find_window_handle (P : Platform) kwargs h :
  handle kwargs = Some h ->
  find_window P kwargs
  = ([], Return (if UIA_support P then UIAElementInfo P (Some h)
                 else NativeElementInfo P h)).
Proof.
  intros Hh. unfold find_window.
  rewrite (pipeline_handle P (UIA_support P) kwargs h Hh).
  reflexivity.
Qed.

Lemma find_window_handle_witness :
  find_window Desk.uia
    (Desk.set_found_index 9 (Desk.set_class_name "Nothing" (Desk.set_handle 555 Desk.call)))
  = ([], Return (Some 555)).
Proof.
  apply (find_window_handle Desk.uia
           (Desk.set_found_index 9
              (Desk.set_class_name "Nothing" (Desk.set_handle 555 Desk.call)))
           555 eq_refl).
Defined.

(** ** Native calls *)

Lemma is_None_handle {A} (o : option A) :
  match o with Some _ => false | None => true end = true -> o = None.
Proof. destruct o; [discriminate | reflexivity]. Qed.

(** X6.  The number of [GetGUIThreadInfo] queries of a call is known from
    its keywords alone: one when [active_only] is true, [handle] is not
    given and the call gets past the [ctrl_index] short cut; none
    otherwise.  It does not depend on the population or on any other
    criterion. *)
Theorem query_count (P : Platform) :
  (forall kw,
      calls CallGetGUIThreadInfo (find_elements P kw)
      = if match handle kw with Some _ => false | None => true end
           && past_ctrl_index kw && Py.default false (active_only kw)
        then 1%nat else 0%nat) /\
  (forall kw,
      calls CallGetGUIThreadInfo (find_windows P kw)
      = if match handle kw with Some _ => false | None => true end
           && past_ctrl_index kw && Py.default false (active_only kw)
        then 1%nat else 0%nat).
Proof.
  split; intros kw.
  - destruct (handle kw) as [h |] eqn:Hh.
    + unfold find_elements, narrow_elements. rewrite Hh. reflexivity.
    + simpl andb. destruct (past_ctrl_index kw) eqn:Hp.
      * destruct (acquire_elements_past P kw Hp) as [pop Ha].
        rewrite (calls_find_elements P kw pop Hh Ha).
        unfold active_only_elements.
        destruct (Py.default false (active_only kw)); [| reflexivity].
        rewrite calls_bind, calls_active_window.
        destruct (outcome (active_window P)); reflexivity.
      * simpl andb. cbv iota.
        unfold past_ctrl_index in Hp.
        unfold find_elements, narrow_elements, acquire_elements.
        rewrite Hh.
        destruct (Py.default true (top_level_only kw)); [discriminate |].
        destruct (ctrl_index kw) as [i |]; [| discriminate].
        destruct (Py.index _ i); reflexivity.
  - destruct (handle kw) as [h |] eqn:Hh.
    + unfold find_windows, narrow_windows. rewrite Hh. reflexivity.
    + simpl andb. destruct (past_ctrl_index kw) eqn:Hp.
      * destruct (acquire_windows_past P kw Hp) as [pop Ha].
        rewrite (calls_find_windows P kw pop Hh Ha).
        unfold active_only_windows.
        destruct (Py.default false (active_only kw)); [| reflexivity].
        rewrite calls_bind, calls_active_window.
        destruct (outcome (active_window P)); reflexivity.
      * simpl andb. cbv iota.
        unfold past_ctrl_index in Hp.
        unfold find_windows, narrow_windows, acquire_windows.
        rewrite Hh.
        destruct (Py.default true (top_level_only kw)); [discriminate |].
        destruct (ctrl_index kw) as [i |]; [| discriminate].
        destruct (window_parent kw); simpl;
          match goal with |- context [Py.index ?l i] => destruct (Py.index l i) end;
          reflexivity.
Qed.

(** X7.  When [active_only] is true and [GetGUIThreadInfo] fails, a call
    without [handle] that gets past the [ctrl_index] short cut raises
    WinError, even when the population is empty: the query comes before
    the early stop. *)
Theorem active_only_query_fails (P : Platform) :
  GetGUIThreadInfo_ret P = false ->
  (forall kw,
      handle kw = None -> past_ctrl_index kw = true ->
      active_only kw = Some true ->
      outcome (find_elements P kw) = Raise WinError) /\
  (forall kw,
      handle kw = None -> past_ctrl_index kw = true ->
      active_only kw = Some true ->
      outcome (find_windows P kw) = Raise WinError).
Proof.
  intros Hret. split; intros kw Hh Hp Hact.
  - destruct (acquire_elements_past P kw Hp) as [pop Ha].
    unfold find_elements. rewrite outcome_bind.
    unfold narrow_elements. rewrite Hh, outcome_bind, Ha, outcome_bind.
    unfold active_only_elements, active_window. rewrite Hact, Hret.
    reflexivity.
  - destruct (acquire_windows_past P kw Hp) as [pop Ha].
    unfold find_windows. rewrite outcome_bind.
    unfold narrow_windows. rewrite Hh, outcome_bind, Ha, outcome_bind.
    unfold active_only_windows, active_window. rewrite Hact, Hret.
    reflexivity.
Qed.

Lemma query_count_witness :
  calls CallGetGUIThreadInfo
    (find_windows Desk.native
       (Desk.set_active_only true (Desk.set_class_name "Nothing" Desk.call)))
  = 1%nat
  /\ calls CallGetGUIThreadInfo
       (find_elements Desk.uia
          (Desk.set_active_only true
             (Desk.set_ctrl_index 0 (Desk.set_top_level_only false Desk.call))))
     = 0%nat.
Proof.
  split.
  - apply (proj2 (query_count Desk.native)
                 (Desk.set_active_only true (Desk.set_class_name "Nothing" Desk.call))).
  - apply (proj1 (query_count Desk.uia)
                 (Desk.set_active_only true
                    (Desk.set_ctrl_index 0 (Desk.set_top_level_only false Desk.call)))).
Defined.

Lemma active_only_query_fails_witness :
  outcome (find_elements (query_failing Desk.uia)
             (Desk.set_active_only true (Desk.set_control_id 999 Desk.call)))
  = Raise WinError
  /\ outcome (find_windows (query_failing Desk.native)
                (Desk.set_active_only true Desk.call))
     = Raise WinError.
Proof.
  split.
  - apply (proj1 (active_only_query_fails (query_failing Desk.uia) eq_refl)
                 (Desk.set_active_only true (Desk.set_control_id 999 Desk.call))
                 eq_refl eq_refl eq_refl).
  - apply (proj2 (active_only_query_fails (query_failing Desk.native) eq_refl)
                 (Desk.set_active_only true Desk.call)
                 eq_refl eq_refl eq_refl).
Defined.

(** ** Patterns that do not compile *)

Lemma filter_elements_bad_pattern (P : Platform) kw l :
  patterns_compile P kw = false ->
  outcome (filter_elements P kw l) = Raise re_error.
Proof.
  unfold patterns_compile, filter_elements. intros Hp.
  rewrite class_name_re_elements_run.
  destruct (pattern_ok P (class_name_re kw)); [| reflexivity].
  rewrite bind_Return_l, title_elements_run.
  simpl in Hp. rewrite Hp. reflexivity.
Qed.

Lemma filter_windows_bad_pattern (P : Platform) kw l :
  patterns_compile P kw = false ->
  outcome (filter_windows P kw l) = Raise re_error.
Proof.
  unfold patterns_compile, filter_windows. intros Hp.
  rewrite class_name_re_windows_run.
  destruct (pattern_ok P (class_name_re kw)); [| reflexivity].
  rewrite bind_Return_l, title_windows_run.
  simpl in Hp. rewrite Hp. reflexivity.
Qed.

(** X8.  A pattern that does not compile ([class_name_re], or [title_re]
    when [title] is not given) raises re.error only if something is left
    of the population after the [control_id] and [active_only] steps; on
    an empty population the early stop returns the empty list before any
    pattern is compiled.  The error comes before the matcher of
    [best_match] is called. *)
Theorem bad_pattern_needs_population (P : Platform) :
  (forall kw population remaining,
      patterns_compile P kw = false -> handle kw = None ->
      outcome (acquire_elements P kw) = Return (Population population) ->
      outcome (active_only_elements P kw (control_id_elements P kw population))
      = Return remaining ->
      outcome (find_elements P kw)
      = match remaining with
        | [] => Return []
        | _ :: _ => Raise re_error
        end) /\
  (forall kw population remaining,
      patterns_compile P kw = false -> handle kw = None ->
      outcome (acquire_windows P kw) = Return (Population population) ->
      outcome (active_only_windows P kw (control_id_windows P kw population))
      = Return remaining ->
      outcome (find_windows P kw)
      = match remaining with
        | [] => Return []
        | _ :: _ => Raise re_error
        end).
Proof.
  split; intros kw population remaining Hp Hh Ha Hr.
  - unfold find_elements. rewrite outcome_bind.
    unfold narrow_elements. rewrite Hh, outcome_bind, Ha, outcome_bind, Hr.
    destruct remaining as [| a rest]; [reflexivity |].
    simpl Py.is_empty. cbv iota.
    now rewrite outcome_bind, filter_elements_bad_pattern.
  - unfold find_windows. rewrite outcome_bind.
    unfold narrow_windows. rewrite Hh, outcome_bind, Ha, outcome_bind, Hr.
    destruct remaining as [| a rest]; [reflexivity |].
    simpl Py.is_empty. cbv iota.
    now rewrite outcome_bind, filter_windows_bad_pattern.
Qed.

Lemma bad_pattern_needs_population_witness :
  outcome (find_elements Desk.uia (with_class_name_re (Some "(") Desk.call))
  = Raise re_error
  /\ outcome (find_windows Desk.native
                (with_title_re (Some "(") (Desk.set_control_id 999 Desk.call)))
     = Return [].
Proof.
  split.
  - apply (proj1 (bad_pattern_needs_population Desk.uia)
                 (with_class_name_re (Some "(") Desk.call)
                 [Some 100; Some 200; Some 300; Some 400]
                 [Some 100; Some 200; Some 300; Some 400]
                 eq_refl eq_refl eq_refl eq_refl).
  - apply (proj2 (bad_pattern_needs_population Desk.native)
                 (with_title_re (Some "(") (Desk.set_control_id 999 Desk.call))
                 [100; 200; 300; 400] []
                 eq_refl eq_refl eq_refl eq_refl).
Defined.

(** ** The log of a call *)

Section Log.

Context (P : Platform).

Lemma events_found_index_step {A} o (l : list A) :
  events (found_index_step P o l) = [].
Proof.
  unfold found_index_step. destruct o as [i |]; [| reflexivity].
  destruct (i <? Py.len l); reflexivity.
Qed.

Lemma events_filter_windows kw l : events (filter_windows P kw l) = [].
Proof.
  unfold filter_windows. rewrite class_name_re_windows_run.
  destruct (pattern_ok P (class_name_re kw)); [| reflexivity].
  rewrite bind_Return_l, title_windows_run.
  destruct (match title kw with
            | Some _ => true
            | None => pattern_ok P (title_re kw)
            end); [| reflexivity].
  rewrite bind_Return_l. unfold best_match_windows.
  destruct (best_match kw) as [target |]; [| reflexivity].
  unfold lift, bind.
  destruct (find_best_control_matches P target _); reflexivity.
Qed.

Lemma events_acquire_windows kw :
  events (acquire_windows P kw) = acquisition_calls kw.
Proof.
  unfold acquire_windows, acquisition_calls.
  destruct (Py.default true (top_level_only kw)); [reflexivity |].
  destruct (window_parent kw); simpl;
    destruct (ctrl_index kw) as [i |]; try reflexivity;
    match goal with |- context [Py.index ?l i] => destruct (Py.index l i) end;
    reflexivity.
Qed.

Lemma events_active_only_windows kw l :
  events (active_only_windows P kw l)
  = if Py.default false (active_only kw) then [CallGetGUIThreadInfo] else [].
Proof.
  unfold active_only_windows, active_window.
  destruct (Py.default false (active_only kw)); [| reflexivity].
  destruct (GetGUIThreadInfo_ret P); reflexivity.
Qed.

Lemma acquire_windows_not_past kw a :
  past_ctrl_index kw = false ->
  outcome (acquire_windows P kw) = Return a ->
  exists result, a = ReturnNow result.
Proof.
  unfold past_ctrl_index, acquire_windows.
  destruct (Py.default true (top_level_only kw)); [discriminate |].
  destruct (ctrl_index kw) as [i |]; [| discriminate].
  intros _. rewrite outcome_bind.
  destruct (outcome (match window_parent kw with
                     | Some p => ret p
                     | None => _
                     end)) as [parent |]; [| discriminate].
  destruct (Py.index _ i); [| discriminate].
  simpl. intros H. inversion H. eexists; reflexivity.
Qed.

Lemma acquire_elements_not_past kw a :
  past_ctrl_index kw = false ->
  outcome (acquire_elements P kw) = Return a ->
  exists result, a = ReturnNow result.
Proof.
  unfold past_ctrl_index, acquire_elements.
  destruct (Py.default true (top_level_only kw)); [discriminate |].
  destruct (ctrl_index kw) as [i |]; [| discriminate].
  intros _.
  destruct (Py.index _ i); [| discriminate].
  simpl. intros H. inversion H. eexists; reflexivity.
Qed.

End Log.

(** X9.  The native calls of [find_windows] are known from its keywords
    alone, in this order: none with [handle]; otherwise [EnumWindows] in
    top-level mode, or [GetDesktopWindow] in descendant mode when no
    (non-zero) parent is given; then [GetGUIThreadInfo] when [active_only]
    is true and the call gets past the [ctrl_index] short cut.  Nothing
    else is called and nothing is printed. *)
Theorem find_windows_log (P : Platform) kw :
  events (find_windows P kw)
  = match handle kw with
    | Some _ => []
    | None =>
        acquisition_calls kw
        ++ (if past_ctrl_index kw && Py.default false (active_only kw)
            then [CallGetGUIThreadInfo] else [])
    end.
Proof.
  unfold find_windows. rewrite events_bind.
  unfold narrow_windows.
  destruct (handle kw) as [h |]; [reflexivity |].
  rewrite events_bind, outcome_bind, events_acquire_windows.
  rewrite <- app_assoc. f_equal.
  destruct (past_ctrl_index kw) eqn:Hp.
  - destruct (acquire_windows_past P kw Hp) as [pop Ha]. rewrite Ha.
    rewrite events_bind, outcome_bind, events_active_only_windows.
    simpl andb.
    destruct (outcome (active_only_windows P kw _)) as [act |];
      [| now rewrite !app_nil_r].
    destruct (Py.is_empty act).
    + simpl. now rewrite !app_nil_r.
    + rewrite events_bind, outcome_bind, events_filter_windows.
      destruct (outcome (filter_windows P kw act)) as [ws |];
        [| now rewrite !app_nil_r].
      simpl outcome. cbv iota.
      rewrite events_bind, events_found_index_step.
      destruct (outcome (found_index_step P (found_index kw) ws));
        simpl; now rewrite !app_nil_r.
  - simpl andb. cbv iota.
    destruct (outcome (acquire_windows P kw)) as [a |] eqn:Ea;
      [| reflexivity].
    destruct (acquire_windows_not_past P kw a Hp Ea) as [r ->].
    reflexivity.
Qed.

Lemma events_filter_elements (P : Platform) kw l :
  events (filter_elements P kw l) = [] \/
  (best_match kw <> None /\
   exists n, events (filter_elements P kw l)
             = [Stdout ("best_match =  " ++ Py.fmt_d n)%string]).
Proof.
  unfold filter_elements. rewrite class_name_re_elements_run.
  destruct (pattern_ok P (class_name_re kw)); [| now left].
  rewrite bind_Return_l, title_elements_run.
  destruct (match title kw with
            | Some _ => true
            | None => pattern_ok P (title_re kw)
            end); [| now left].
  rewrite bind_Return_l. unfold best_match_elements.
  destruct (best_match kw) as [target |]; [| now left].
  right. split; [discriminate |].
  eexists. unfold lift, bind, emit.
  destruct (find_best_control_matches P target _); reflexivity.
Qed.

(** X10.  The log of [find_elements]: no native call with [handle];
    otherwise [EnumWindows] in top-level mode (and never
    [GetDesktopWindow]), then [GetGUIThreadInfo] when [active_only] is
    true and the call gets past the [ctrl_index] short cut, then at most
    one line on stdout, "best_match =  <n>", which appears only when
    [best_match] is given. *)
Theorem find_elements_log (P : Platform) kw :
  exists out,
    events (find_elements P kw)
    = match handle kw with
      | Some _ => []
      | None =>
          (if Py.default true (top_level_only kw) then [CallEnumWindows] else [])
          ++ (if past_ctrl_index kw && Py.default false (active_only kw)
              then [CallGetGUIThreadInfo] else [])
      end ++ out
    /\ (out = [] \/
        (best_match kw <> None /\
         exists n, out = [Stdout ("best_match =  " ++ Py.fmt_d n)%string])).
Proof.
  unfold find_elements, narrow_elements.
  destruct (handle kw) as [h |].
  - exists []. split; [reflexivity | now left].
  - rewrite events_bind, events_bind, outcome_bind.
    assert (Ea : events (acquire_elements P kw)
                 = if Py.default true (top_level_only kw)
                   then [CallEnumWindows] else []).
    { unfold acquire_elements.
      destruct (Py.default true (top_level_only kw)); [reflexivity |].
      destruct (ctrl_index kw) as [i |]; [| reflexivity].
      destruct (Py.index _ i); reflexivity. }
    rewrite Ea. clear Ea.
    destruct (past_ctrl_index kw) eqn:Hp.
    + destruct (acquire_elements_past P kw Hp) as [pop Ha]. rewrite Ha.
      rewrite events_bind, outcome_bind.
      assert (Eq : events (active_only_elements P kw (control_id_elements P kw pop))
                   = if Py.default false (active_only kw)
                     then [CallGetGUIThreadInfo] else []).
      { unfold active_only_elements, active_window.
        destruct (Py.default false (active_only kw)); [| reflexivity].
        destruct (GetGUIThreadInfo_ret P); reflexivity. }
      rewrite Eq. clear Eq. simpl andb.
      destruct (outcome (active_only_elements P kw _)) as [act |].
      * destruct (Py.is_empty act).
        -- exists []. split; [simpl; now rewrite !app_nil_r | now left].
        -- rewrite events_bind, outcome_bind.
           exists (events (filter_elements P kw act)).
           split.
           ++ destruct (outcome (filter_elements P kw act)) as [els |].
              ** simpl outcome. cbv iota. rewrite events_found_index_step.
                 simpl. now rewrite !app_nil_r, <- !app_assoc.
              ** simpl. now rewrite !app_nil_r, <- !app_assoc.
           ++ apply events_filter_elements.
      * exists []. split; [simpl; now rewrite !app_nil_r | now left].
    + simpl andb. cbv iota. exists []. split; [| now left].
      destruct (outcome (acquire_elements P kw)) as [a |] eqn:Ea.
      * destruct (acquire_elements_not_past P kw a Hp Ea) as [r ->].
        simpl. now rewrite !app_nil_r.
      * simpl. now rewrite !app_nil_r.
Qed.

(** ** The exceptions of a call *)

Section Exceptions.

Context (P : Platform).





End Exceptions.



(** ** Negative indices *)

Lemma slice_below_empty {A} (l : list A) i :
  i < - Py.len l -> Py.slice l i (i + 1) = [].
Proof.
  intros H. pose proof (len_nonneg l) as Hl.
  unfold Py.slice, Py.clip.
  destruct (i <? 0) eqn:E1; [| lia].
  destruct (i + 1 <? 0) eqn:E2.
  - replace (Z.to_nat (Z.max (i + 1 + Py.len l) 0 - Z.max (i + Py.len l) 0))
      with 0%nat by lia.
    reflexivity.
  - replace (Z.to_nat (Z.min (i + 1) (Py.len l) - Z.max (i + Py.len l) 0))
      with 0%nat by lia.
    reflexivity.
Qed.

(** X12.  A negative [found_index] never raises: the guard
    [found_index < len(elements)] always lets it through.  The list that
    reaches the step is cut to at most one element, and to no element at
    all when [found_index] is -1 or lies before the start of the list. *)
Theorem negative_found_index (P : Platform) (i : Z) :
  (forall kw elements,
      found_index kw = Some i -> i < 0 ->
      outcome (narrow_elements P kw) = Return (Population elements) ->
      (exists result, outcome (find_elements P kw) = Return result) /\
      (i = -1 \/ i < - Py.len elements ->
       outcome (find_elements P kw) = Return [])) /\
  (forall kw windows,
      found_index kw = Some i -> i < 0 ->
      outcome (narrow_windows P kw) = Return (Population windows) ->
      (exists result, outcome (find_windows P kw) = Return result) /\
      (i = -1 \/ i < - Py.len windows ->
       outcome (find_windows P kw) = Return [])).
Proof.
  assert (Hstep : forall A (l : list A),
             i < 0 ->
             found_index_step P (Some i) l
             = ([], Return (Py.slice l i (i + 1)))).
  { intros A l Hi. pose proof (len_nonneg l). unfold found_index_step.
    destruct (i <? Py.len l) eqn:E; [reflexivity | lia]. }
  assert (Hempty : forall A (l : list A),
             i = -1 \/ i < - Py.len l -> Py.slice l i (i + 1) = []).
  { intros A l [-> | Hb]; [apply slice_last_empty | now apply slice_below_empty]. }
  split.
  - intros kw elements Hf Hi Hn.
    rewrite (find_elements_reaches P kw elements Hn), Hf, (Hstep _ elements Hi).
    split; [eexists; reflexivity |].
    intros Hc. simpl. now rewrite (Hempty _ elements Hc).
  - intros kw windows Hf Hi Hn.
    rewrite (find_windows_reaches P kw windows Hn), Hf, (Hstep _ windows Hi).
    split; [eexists; reflexivity |].
    intros Hc. simpl. now rewrite (Hempty _ windows Hc).
Qed.

Lemma negative_found_index_witness :
  outcome (find_elements Desk.uia (Desk.set_found_index (-9) Desk.call))
  = Return []
  /\ outcome (find_windows Desk.native (Desk.set_found_index (-1) Desk.call))
     = Return [].
Proof.
  split.
  - apply (proj2 (proj1 (negative_found_index Desk.uia (-9))
                        (Desk.set_found_index (-9) Desk.call)
                        [Some 100; Some 200; Some 300]
                        eq_refl ltac:(lia) eq_refl)).
    right. vm_compute. reflexivity.
  - apply (proj2 (proj2 (negative_found_index Desk.native (-1))
                        (Desk.set_found_index (-1) Desk.call)
                        [100; 200; 300]
                        eq_refl ltac:(lia) eq_refl)).
    left. reflexivity.
Defined.

Lemma index_from_end {A} (l : list A) i :
  - Py.len l <= i < 0 ->
  Py.index l i = nth_error l (Z.to_nat (Py.len l + i)).
Proof.
  intros H. unfold Py.index.
  destruct (i <? 0) eqn:E; [| lia].
  destruct (i + Py.len l <? 0) eqn:E1; [lia |].
  destruct (Py.len l <=? i + Py.len l) eqn:E2; [lia |].
  simpl. f_equal. f_equal. lia.
Qed.

Lemma index_below {A} (l : list A) i : i < - Py.len l -> Py.index l i = None.
Proof.
  intros H. pose proof (len_nonneg l). unfold Py.index.
  destruct (i <? 0) eqn:E; [| lia].
  destruct (i + Py.len l <? 0) eqn:E1; [reflexivity | lia].
Qed.

(** X13.  A negative [ctrl_index] in descendant mode counts from the end
    of the unfiltered list: from -1 (the last) down to minus the length
    (the first) it returns that one element; below that it raises
    IndexError. *)
Theorem negative_ctrl_index (P : Platform) (i : Z) :
  (forall kw,
      handle kw = None -> top_level_only kw = Some false ->
      ctrl_index kw = Some i ->
      let elements :=
        ei_descendants P
          (Py.default (UIAElementInfo P None) (element_parent P kw)) in
      (- Py.len elements <= i < 0 ->
       exists elem,
         nth_error elements (Z.to_nat (Py.len elements + i)) = Some elem /\
         outcome (find_elements P kw) = Return [elem]) /\
      (i < - Py.len elements ->
       outcome (find_elements P kw) = Raise IndexError)) /\
  (forall kw,
      handle kw = None -> top_level_only kw = Some false ->
      ctrl_index kw = Some i ->
      let windows :=
        handleprops_children P
          (Py.default (GetDesktopWindow P) (window_parent kw)) in
      (- Py.len windows <= i < 0 ->
       exists win,
         nth_error windows (Z.to_nat (Py.len windows + i)) = Some win /\
         outcome (find_windows P kw) = Return [NativeElementInfo P win]) /\
      (i < - Py.len windows ->
       outcome (find_windows P kw) = Raise IndexError)).
Proof.
  split.
  - intros kw Hh Ht Hc elements.
    assert (E : outcome (find_elements P kw)
                = match Py.index elements i with
                  | Some elem => Return [elem]
                  | None => Raise IndexError
                  end).
    { unfold find_elements, narrow_elements, acquire_elements.
      rewrite Hh, Ht, Hc. simpl Py.default. cbv iota. fold elements.
      destruct (Py.index elements i); reflexivity. }
    split; intros Hi.
    + destruct (nth_error_in_range elements (Py.len elements + i))
        as [x Hx]; [lia |].
      exists x. split; [assumption |].
      now rewrite E, index_from_end, Hx.
    + now rewrite E, index_below.
  - intros kw Hh Ht Hc windows.
    assert (E : outcome (find_windows P kw)
                = match Py.index windows i with
                  | Some win => Return [NativeElementInfo P win]
                  | None => Raise IndexError
                  end).
    { unfold find_windows, narrow_windows, acquire_windows.
      rewrite Hh, Ht, Hc. simpl Py.default. cbv iota.
      subst windows.
      destruct (window_parent kw); simpl;
        match goal with |- context [Py.index ?l i] => destruct (Py.index l i) end;
        reflexivity. }
    split; intros Hi.
    + destruct (nth_error_in_range windows (Py.len windows + i))
        as [x Hx]; [lia |].
      exists x. split; [assumption |].
      now rewrite E, index_from_end, Hx.
    + now rewrite E, index_below.
Qed.

Lemma negative_ctrl_index_witness :
  outcome (find_elements Desk.uia
             (Desk.set_ctrl_index (-1) (Desk.set_top_level_only false Desk.call)))
  = Return [Some 400]
  /\ outcome (find_windows Desk.native
                (Desk.set_ctrl_index (-5) (Desk.set_top_level_only false Desk.call)))
     = Raise IndexError.
Proof.
  split.
  - destruct (proj1 (proj1 (negative_ctrl_index Desk.uia (-1))
                           (Desk.set_ctrl_index (-1)
                              (Desk.set_top_level_only false Desk.call))
                           eq_refl eq_refl eq_refl))
      as [elem [Hn Ho]].
    + vm_compute. split; [discriminate | reflexivity].
    + vm_compute in Hn. injection Hn as <-. exact Ho.
  - apply (proj2 (proj2 (negative_ctrl_index Desk.native (-5))
                        (Desk.set_ctrl_index (-5)
                           (Desk.set_top_level_only false Desk.call))
                        eq_refl eq_refl eq_refl)).
    vm_compute. reflexivity.
Defined.

(** ** The parent *)

(** X14.  A [parent] of 0 is no parent: the call does what the same call
    without [parent] does (the whole top-level population, or the
    descendants of the root element, resp. the children of the desktop
    window). *)
Theorem zero_parent_is_no_parent (P : Platform) :
  (forall kw,
      find_elements P (with_parent (Some (ParentHandle 0)) kw)
      = find_elements P (with_parent None kw)) /\
  (forall kw,
      find_windows P (with_parent (Some 0) kw)
      = find_windows P (with_parent None kw)).
Proof.
  split; intros kw; destruct kw; reflexivity.
Qed.

Lemma active_only_windows_incl (P : Platform) kw l res :
  outcome (active_only_windows P kw l) = Return res -> incl res l.
Proof.
  unfold active_only_windows.
  destruct (Py.default false (active_only kw)).
  - rewrite outcome_bind.
    destruct (outcome (active_window P)) as [active |]; [| discriminate].
    simpl.
    destruct (existsb (fun win => win =? active) l) eqn:Ex;
      intros H; inversion H; subst.
    + intros x [<- | []].
      apply existsb_exists in Ex. destruct Ex as [y [Hy Heq]].
      apply Z.eqb_eq in Heq. now subst.
    + apply incl_nil_l.
  - simpl. intros H; inversion H. apply incl_refl.
Qed.

Lemma result_in_acquired_elements (P : Platform) kw population result :
  handle kw = None -> best_match kw = None ->
  outcome (acquire_elements P kw) = Return (Population population) ->
  outcome (find_elements P kw) = Return result ->
  incl result population.
Proof.
  intros Hh Hb Ha H.
  unfold find_elements in H. rewrite outcome_bind in H.
  unfold narrow_elements in H. rewrite Hh, outcome_bind, Ha, outcome_bind in H.
  destruct (outcome (active_only_elements P kw _)) as [act |] eqn:Eact;
    [| discriminate].
  assert (Hact : incl act population).
  { eapply incl_tran; [exact (active_only_elements_incl P kw _ _ Eact) |].
    apply control_id_elements_incl. }
  destruct (Py.is_empty act).
  - simpl in H. inversion H; subst. exact Hact.
  - rewrite (filter_elements_run P kw _ Hb) in H.
    destruct (patterns_compile P kw); [| discriminate].
    rewrite bind_Return_l in H.
    change (outcome (ret ?a)) with (Return (EI:=ElementInfo P) a) in H.
    cbv iota in H.
    eapply incl_tran; [exact (found_index_step_incl P _ _ _ H) |].
    eapply incl_tran; [apply incl_filter | exact Hact].
Qed.

Lemma result_in_acquired_windows (P : Platform) kw population result :
  handle kw = None -> best_match kw = None ->
  outcome (acquire_windows P kw) = Return (Population population) ->
  outcome (find_windows P kw) = Return result ->
  exists windows, result = map (NativeElementInfo P) windows /\
                  incl windows population.
Proof.
  intros Hh Hb Ha H.
  unfold find_windows in H. rewrite outcome_bind in H.
  unfold narrow_windows in H. rewrite Hh, outcome_bind, Ha, outcome_bind in H.
  destruct (outcome (active_only_windows P kw _)) as [act |] eqn:Eact;
    [| discriminate].
  assert (Hact : incl act population).
  { eapply incl_tran; [exact (active_only_windows_incl P kw _ _ Eact) |].
    rewrite control_id_windows_filter. apply incl_filter. }
  destruct (Py.is_empty act).
  - simpl in H. inversion H; subst. exists []. split; [reflexivity |].
    apply incl_nil_l.
  - rewrite (filter_windows_run P kw _ Hb) in H.
    destruct (patterns_compile P kw); [| discriminate].
    rewrite bind_Return_l in H.
    change (outcome (ret ?a)) with (Return (EI:=ElementInfo P) a) in H.
    cbv iota in H. rewrite outcome_bind in H.
    destruct (outcome (found_index_step P (found_index kw) _))
      as [sel |] eqn:Es; [| discriminate].
    simpl in H. inversion H; subst. exists sel. split; [reflexivity |].
    eapply incl_tran; [exact (found_index_step_incl P _ _ _ Es) |].
    eapply incl_tran; [apply incl_filter | exact Hact].
Qed.

(** X15.  In top-level mode with a (non-zero) parent and without
    [best_match], every element of the result has that parent:
    [elem.parent == parent] in [find_elements],
    [handleprops.parent(win) == parent] in [find_windows]. *)
Theorem parent_restricts_top_level (P : Platform) :
  (forall kw p result,
      handle kw = None -> best_match kw = None ->
      Py.default true (top_level_only kw) = true ->
      element_parent P kw = Some p ->
      outcome (find_elements P kw) = Return result ->
      forall elem, In elem result -> has_parent P p elem = true) /\
  (forall kw p result,
      handle kw = None -> best_match kw = None ->
      Py.default true (top_level_only kw) = true ->
      window_parent kw = Some p ->
      outcome (find_windows P kw) = Return result ->
      forall x, In x result ->
                exists win, x = NativeElementInfo P win /\
                            handleprops_parent P win = p).
Proof.
  split; intros kw p result Hh Hb Ht Hp H x Hx.
  - assert (Ha : outcome (acquire_elements P kw)
                 = Return (Population
                             (filter (has_parent P p)
                                     (map (fun handle => UIAElementInfo P (Some handle))
                                          (EnumWindows P))))).
    { unfold acquire_elements. rewrite Ht, Hp. reflexivity. }
    apply (result_in_acquired_elements P kw _ result Hh Hb Ha H) in Hx.
    apply filter_In in Hx. tauto.
  - assert (Ha : outcome (acquire_windows P kw)
                 = Return (Population
                             (filter (fun win => handleprops_parent P win =? p)
                                     (EnumWindows P)))).
    { unfold acquire_windows. rewrite Ht, Hp. reflexivity. }
    destruct (result_in_acquired_windows P kw _ result Hh Hb Ha H)
      as [ws [-> Hws]].
    apply in_map_iff in Hx. destruct Hx as [win [<- Hw]].
    exists win. split; [reflexivity |].
    apply Hws in Hw. apply filter_In in Hw. destruct Hw as [_ Hw].
    now apply Z.eqb_eq in Hw.
Qed.

Lemma parent_restricts_top_level_witness :
  outcome (find_elements (enumerating [100; 101; 102; 200] Desk.uia)
             (with_parent (Some (ParentHandle 100)) Desk.call))
  = Return [Some 101; Some 102]
  /\ has_parent (enumerating [100; 101; 102; 200] Desk.uia) (Some 100) (Some 102)
     = true.
Proof.
  split; [reflexivity |].
  apply (proj1 (parent_restricts_top_level
                  (enumerating [100; 101; 102; 200] Desk.uia))
               (with_parent (Some (ParentHandle 100)) Desk.call)
               (Some 100) [Some 101; Some 102]
               eq_refl eq_refl eq_refl eq_refl eq_refl (Some 102)).
  right. left. reflexivity.
Defined.

(** X16.  Without [handle] and [best_match], every element [find_windows]
    returns is the [NativeElementInfo] of a handle of the initial
    population of its acquisition mode: a top-level window, or a child of
    the parent (of the desktop window when there is no parent). *)
Theorem find_windows_in_population (P : Platform) kw result :
  handle kw = None -> best_match kw = None ->
  outcome (find_windows P kw) = Return result ->
  exists windows, result = map (NativeElementInfo P) windows /\
                  incl windows (initial_windows P kw).
Proof.
  intros Hh Hb H.
  destruct (past_ctrl_index kw) eqn:Hp.
  - destruct (acquire_windows_past P kw Hp) as [pop Ha].
    destruct (result_in_acquired_windows P kw pop result Hh Hb Ha H)
      as [ws [-> Hws]].
    exists ws. split; [reflexivity |].
    eapply incl_tran; [exact Hws |].
    unfold acquire_windows, initial_windows in *.
    destruct (Py.default true (top_level_only kw)).
    + simpl in Ha. inversion Ha.
      destruct (window_parent kw); [apply incl_filter | apply incl_refl].
    + destruct (window_parent kw); simpl in Ha |- *;
        destruct (ctrl_index kw) as [i |];
        try match type of Ha with
            | context [Py.index ?l i] => destruct (Py.index l i)
            end;
        simpl in Ha; inversion Ha; apply incl_refl.
  - unfold find_windows in H. rewrite outcome_bind in H.
    unfold narrow_windows in H. rewrite Hh, outcome_bind in H.
    unfold past_ctrl_index in Hp.
    unfold acquire_windows, initial_windows in *.
    destruct (Py.default true (top_level_only kw)); [discriminate |].
    destruct (ctrl_index kw) as [i |]; [| discriminate].
    destruct (window_parent kw); simpl in H |- *;
      match type of H with
      | context [Py.index ?l i] => destruct (Py.index l i) as [win |] eqn:Ei
      end;
      simpl in H; inversion H; subst;
      (exists [win]; split; [reflexivity |]);
      intros x [<- | []]; exact (index_In _ _ _ Ei).
Qed.

Lemma find_windows_in_population_witness :
  outcome (find_windows Desk.native
             (with_parent (Some 100) (Desk.set_top_level_only false Desk.call)))
  = Return [Some 101; Some 102]
  /\ incl [101; 102]
          (initial_windows Desk.native
             (with_parent (Some 100) (Desk.set_top_level_only false Desk.call))).
Proof.
  split; [reflexivity |].
  destruct (find_windows_in_population Desk.native
              (with_parent (Some 100) (Desk.set_top_level_only false Desk.call))
              [Some 101; Some 102] eq_refl eq_refl eq_refl)
    as [ws [Hm Hi]].
  destruct ws as [| a [| b [| c ws]]]; try discriminate Hm.
  simpl in Hm. injection Hm as <- <-. exact Hi.
Defined.
